(** * Gas leakage detector (main.ino): a shallow embedding and its properties

    The sketch is a single-threaded sense-decide-act loop.  Every call it
    makes to the board (digitalWrite, tone, delay, the LCD, the two serial
    ports) is modelled as a step of a state monad over a [World] that holds
    the output pin levels, the LCD contents, the analog input and the log of
    all calls in program order. *)

From Stdlib Require Import ZArith String Ascii List Lia.
From stdpp Require Import base gmap list strings.

(** ** Board-level data *)

(** HIGH and LOW of digitalWrite. *)
Inductive Level : Type := LOW | HIGH.

Global Instance Level_eq_dec : EqDecision Level.
Proof. solve_decision. Defined.

(** One entry per call into the Arduino core or a peripheral library. *)
Inductive Event : Type :=
| DigitalWrite (pin : Z) (v : Level)
| Tone (pin : Z) (frequency : Z) (duration : Z)
| NoTone (pin : Z)
| Delay (ms : Z)
| LcdClear
| LcdSetCursor (col : nat) (row : nat)
| LcdPrint (s : string)
| SerialPrint (s : string)
| SerialPrintln (s : string)
| GsmPrintln (s : string)
| GsmWrite (b : Z).

Global Instance Event_eq_dec : EqDecision Event.
Proof. solve_decision. Defined.

(** ** C strings and [%d] formatting *)

Definition NUL : ascii := Ascii.zero.

(** [s[0]] of a NUL-terminated string: the first character, or the
    terminator when the string is empty. *)
Definition first_char (s : string) : ascii :=
  match s with
  | EmptyString => NUL
  | String c _ => c
  end.

(** The characters a [const char*] denotes: everything before the first NUL. *)
Fixpoint c_str (s : string) : string :=
  match s with
  | EmptyString => EmptyString
  | String c s' => if decide (c = NUL) then EmptyString else String c (c_str s')
  end.

Definition digit_char (d : Z) : ascii := ascii_of_nat (48 + Z.to_nat d).

(** The digit loop of printf: least significant digit first, prepended to
    what has been produced so far, until the quotient is zero. *)
Fixpoint utoa (fuel : nat) (n : Z) (acc : string) : string :=
  match fuel with
  | O => acc
  | S fuel' =>
      let acc' := String (digit_char (n mod 10)) acc in
      if (n / 10 =? 0)%Z then acc' else utoa fuel' (n / 10) acc'
  end.

(** A number has at most [log2 n + 1] decimal digits. *)
Definition digits_fuel (n : Z) : nat := S (Z.to_nat (Z.log2 n)).

(** [%d]: optional minus sign, then the decimal digits. *)
Definition itoa (n : Z) : string :=
  if (n <? 0)%Z
  then String "-"%char (utoa (digits_fuel (- n)) (- n) EmptyString)
  else utoa (digits_fuel n) n EmptyString.

(** The first [n] characters of a string. *)
Fixpoint str_take (n : nat) (s : string) : string :=
  match n, s with
  | S n', String c s' => String c (str_take n' s')
  | _, _ => EmptyString
  end.

(** [snprintf(buf, size, ...)] keeps at most [size - 1] characters of the
    formatted text and terminates the buffer. *)
Definition snprintf (size : nat) (formatted : string) : string :=
  str_take (size - 1) formatted.

(** [snprintf(buf, size, "Gas Level: %d", level)] *)
Definition format_gas_level (size : nat) (level : Z) : string :=
  snprintf size ("Gas Level: " +:+ itoa level).

(** ** The character LCD *)

(** Modelled from the spec: the LiquidCrystal driver is an external library,
    not part of the sketch.  Following sections 4.2 and 9 of the spec, the
    device is a grid of [lcd_cols] by 2 characters; [clear] blanks it and
    homes the cursor, [print] writes at the cursor and advances it, and
    characters that fall beyond the last column are dropped silently. *)
Record Lcd : Type := mkLcd {
  cur_col : nat;
  cur_row : nat;
  row0 : list ascii;
  row1 : list ascii
}.

(** [lcd.begin(16, 2)] *)
Definition lcd_cols : nat := 16.

Definition blank_row : list ascii := replicate lcd_cols " "%char.

Definition lcd_blank : Lcd := mkLcd 0 0 blank_row blank_row.

Definition lcd_clear (_ : Lcd) : Lcd := lcd_blank.

Definition lcd_setCursor (col row : nat) (l : Lcd) : Lcd :=
  mkLcd col row (row0 l) (row1 l).

Definition lcd_putc (l : Lcd) (ch : ascii) : Lcd :=
  mkLcd (S (cur_col l)) (cur_row l)
        (if decide (cur_row l = 0%nat) then <[cur_col l := ch]> (row0 l) else row0 l)
        (if decide (cur_row l = 1%nat) then <[cur_col l := ch]> (row1 l) else row1 l).

Definition lcd_print (s : string) (l : Lcd) : Lcd :=
  fold_left lcd_putc (list_ascii_of_string (c_str s)) l.

(** What a row shows when [s] is written from its first column onto a
    blank row: the text cut at the last column and padded with spaces. *)
Definition shown (s : string) : list ascii :=
  take lcd_cols (list_ascii_of_string s)
  ++ replicate (lcd_cols - length (list_ascii_of_string s)) " "%char.

(** ** The world and the monad of board calls *)

Record World : Type := mkWorld {
  pins : gmap Z Level;     (* level last written to each output pin *)
  lcd : Lcd;               (* contents of the display *)
  analog : Z -> Z;         (* sample currently present on each analog pin *)
  trace : list Event       (* every call so far, oldest first *)
}.

Definition IO (A : Type) : Type := World -> A * World.

Global Instance IO_ret : MRet IO := fun A (a : A) w => (a, w).
Global Instance IO_bind : MBind IO :=
  fun A B (f : A -> IO B) (m : IO A) w => let '(a, w') := m w in f a w'.

Definition exec {A} (m : IO A) (w : World) : World := snd (m w).
Definition eval {A} (m : IO A) (w : World) : A := fst (m w).

(** Log one call. *)
Definition emit (e : Event) : IO unit :=
  fun w => (tt, mkWorld (pins w) (lcd w) (analog w) (trace w ++ [e])).

Definition digitalWrite (pin : Z) (v : Level) : IO unit :=
  fun w => (tt, mkWorld (<[pin := v]> (pins w)) (lcd w) (analog w)
                        (trace w ++ [DigitalWrite pin v])).

Definition analogRead (pin : Z) : IO Z :=
  fun w => (analog w pin, w).

Definition tone (pin frequency duration : Z) : IO unit :=
  emit (Tone pin frequency duration).
Definition noTone (pin : Z) : IO unit := emit (NoTone pin).
Definition delay (ms : Z) : IO unit := emit (Delay ms).

Definition on_lcd (f : Lcd -> Lcd) (e : Event) : IO unit :=
  fun w => (tt, mkWorld (pins w) (f (lcd w)) (analog w) (trace w ++ [e])).

Definition lcd_clear_ : IO unit := on_lcd lcd_clear LcdClear.
Definition lcd_setCursor_ (col row : nat) : IO unit :=
  on_lcd (lcd_setCursor col row) (LcdSetCursor col row).
Definition lcd_print_ (s : string) : IO unit :=
  on_lcd (lcd_print s) (LcdPrint s).

(** The hardware serial port (diagnostic log). *)
Definition Serial_print (s : string) : IO unit := emit (SerialPrint s).
Definition Serial_println (s : string) : IO unit := emit (SerialPrintln s).

(** The software serial port to the modem. *)
Definition mySerial_println (s : string) : IO unit := emit (GsmPrintln s).
Definition mySerial_write (b : Z) : IO unit := emit (GsmWrite b).

(** [for (int i = 0; i < n; i++) body] for a body that does not read [i]. *)
Fixpoint for_times (n : nat) (body : IO unit) : IO unit :=
  match n with
  | O => mret tt
  | S n' => body ;; for_times n' body
  end.

(** ** The sketch *)

Definition THRESHOLD : Z := 500.

(** The analog pin constant of the board header (its Uno value); nothing
    below depends on the number. *)
Definition A0 : Z := 14.

Definition GAS_SENSOR_PIN : Z := A0.
Definition ALARM_PINS : list Z := [13; 9; 8; 12]%Z.  (* {buzzer, redLED, greenLED, relay} *)

(** *** class GasSensor *)

Record GasSensor : Type := mkGasSensor { pin : Z }.

Definition readGasLevel (s : GasSensor) : IO Z :=
  analogRead (pin s).

(** *** class Display *)

Definition showMessage (line1 line2 : string) : IO unit :=
  lcd_clear_ ;;
  lcd_setCursor_ 0 0 ;;
  lcd_print_ line1 ;;
  if decide (first_char line2 <> NUL) then
    lcd_setCursor_ 0 1 ;;
    lcd_print_ line2
  else mret tt.

(** The default argument of [line2]. *)
Definition showMessage_1 (line1 : string) : IO unit :=
  showMessage line1 EmptyString.

Definition showGasLevel (level : Z) : IO unit :=
  let buffer := format_gas_level 16 level in
  showMessage "Gas Scan is ON" buffer.

(** *** class Alarm *)

Record Alarm : Type := mkAlarm {
  buzzerPin : Z;
  redLedPin : Z;
  greenLedPin : Z;
  relayPin : Z
}.

(** The member initialisers of the constructor, [pins[0]] to [pins[3]]. *)
Definition Alarm_of (pins : list Z) : Alarm :=
  mkAlarm (nth 0 pins 0%Z) (nth 1 pins 0%Z) (nth 2 pins 0%Z) (nth 3 pins 0%Z).

Definition trigger (a : Alarm) : IO unit :=
  digitalWrite (redLedPin a) HIGH ;;
  digitalWrite (greenLedPin a) LOW ;;
  digitalWrite (relayPin a) HIGH.

Definition reset (a : Alarm) : IO unit :=
  digitalWrite (buzzerPin a) LOW ;;
  digitalWrite (redLedPin a) LOW ;;
  digitalWrite (greenLedPin a) HIGH ;;
  digitalWrite (relayPin a) LOW.

Definition playStartupSound (a : Alarm) : IO unit :=
  tone (buzzerPin a) 2000 150 ;;
  delay 150 ;;
  tone (buzzerPin a) 2000 180 ;;
  delay 150 ;;
  tone (buzzerPin a) 2500 100 ;;
  delay 200 ;;
  tone (buzzerPin a) 3000 150 ;;
  delay 250 ;;
  noTone (buzzerPin a).

Definition playAlertSound (a : Alarm) : IO unit :=
  for_times 2 (
    for_times 5 (
      tone (buzzerPin a) 2000 150 ;;
      delay 100 ;;
      tone (buzzerPin a) 4000 150 ;;
      delay 160 ;;
      tone (buzzerPin a) 2500 150 ;;
      delay 100 ;;
      tone (buzzerPin a) 4500 150 ;;
      delay 160
    ) ;;
    delay 1000
  ) ;;
  noTone (buzzerPin a).

(** *** class GSMModule *)

Definition dquote : ascii := ascii_of_nat 34.
Definition CR : ascii := ascii_of_nat 13.

(** The literal [AT+CMGS="+91xxxxxxxxxx"\r]. *)
Definition CMGS_command : string :=
  "AT+CMGS=" +:+ String dquote ("+91xxxxxxxxxx" +:+ String dquote (String CR EmptyString)).

Definition sendMessage (message : string) (gasLevel : Z) : IO unit :=
  mySerial_println "AT+CMGF=1" ;;
  delay 1000 ;;
  mySerial_println CMGS_command ;;
  delay 1000 ;;
  mySerial_println message ;;
  let gasLevelMessage := format_gas_level 30 gasLevel in
  mySerial_println gasLevelMessage ;;
  mySerial_write 26 ;;
  delay 1000.

(** *** class GasLeakageDetector *)

Record GasLeakageDetector : Type := mkDetector {
  sensor : GasSensor;
  alarm : Alarm;
  threshold : Z
}.

Definition detectAndRespond (d : GasLeakageDetector) : IO unit :=
  gasLevel ← readGasLevel (sensor d);
  Serial_print "Gas Level: " ;;
  Serial_println (itoa gasLevel) ;;
  showGasLevel gasLevel ;;
  (if (gasLevel >? threshold d)%Z then
     trigger (alarm d) ;;
     sendMessage "Excess Gas Detected" gasLevel ;;
     Serial_println "Excess Gas Detected" ;;
     playAlertSound (alarm d) ;;
     showMessage "Gas Level Exceed" "SMS Sent"
   else
     reset (alarm d) ;;
     Serial_println "Gas Level Normal" ;;
     showMessage_1 "Gas Level Normal") ;;
  delay 1000.

(** *** The global objects *)

Definition gasSensor : GasSensor := mkGasSensor GAS_SENSOR_PIN.
Definition gasAlarm : Alarm := Alarm_of ALARM_PINS.
Definition detector : GasLeakageDetector := mkDetector gasSensor gasAlarm THRESHOLD.

Definition loop : IO unit := detectAndRespond detector.

(** The board after power-up, with [sample] on every analog pin: nothing
    written yet, a blank display, an empty log. *)
Definition power_on (sample : Z) : World :=
  mkWorld ∅ lcd_blank (fun _ => sample) [].

(** ** Observations on a log *)

Definition is_tone (e : Event) : bool :=
  match e with Tone _ _ _ => true | _ => false end.

Definition is_gsm (e : Event) : bool :=
  match e with GsmPrintln _ | GsmWrite _ => true | _ => false end.

Definition is_gsm_println (e : Event) : bool :=
  match e with GsmPrintln _ => true | _ => false end.

(** Number of [tone] calls in a log. *)
Definition tone_count (evs : list Event) : nat := length (filter is_tone evs).

(** Number of messages handed to the modem: one Ctrl+Z terminator each. *)
Definition sms_count (evs : list Event) : nat :=
  length (filter (fun e => bool_decide (e = GsmWrite 26)) evs).

(** The effect of one logged call on the output pins and on the display. *)
Definition pins_step (p : gmap Z Level) (e : Event) : gmap Z Level :=
  match e with
  | DigitalWrite pin v => <[pin := v]> p
  | _ => p
  end.

Definition lcd_step (l : Lcd) (e : Event) : Lcd :=
  match e with
  | LcdClear => lcd_clear l
  | LcdSetCursor col row => lcd_setCursor col row l
  | LcdPrint s => lcd_print s l
  | _ => l
  end.

(** [runs m w evs]: started in [w], [m] appends exactly [evs] to the log,
    and the pins and the display end where replaying [evs] leaves them. *)
Definition runs {A} (m : IO A) (w : World) (evs : list Event) : Prop :=
  trace (exec m w) = trace w ++ evs
  /\ pins (exec m w) = fold_left pins_step evs (pins w)
  /\ lcd (exec m w) = fold_left lcd_step evs (lcd w)
  /\ analog (exec m w) = analog w.

(** ** The log of each method *)

Definition trigger_log (a : Alarm) : list Event :=
  [DigitalWrite (redLedPin a) HIGH; DigitalWrite (greenLedPin a) LOW;
   DigitalWrite (relayPin a) HIGH].

Definition reset_log (a : Alarm) : list Event :=
  [DigitalWrite (buzzerPin a) LOW; DigitalWrite (redLedPin a) LOW;
   DigitalWrite (greenLedPin a) HIGH; DigitalWrite (relayPin a) LOW].


(** The four outputs of the alarm are wired to four different pins. *)
Definition distinct_pins (a : Alarm) : Prop :=
  NoDup [buzzerPin a; redLedPin a; greenLedPin a; relayPin a].

(** The four-tone pattern of the inner loop body of [playAlertSound]. *)
Definition alert_pattern (buzzer : Z) : list Event :=
  [Tone buzzer 2000 150; Delay 100; Tone buzzer 4000 150; Delay 160;
   Tone buzzer 2500 150; Delay 100; Tone buzzer 4500 150; Delay 160].

Definition playAlertSound_log (a : Alarm) : list Event :=
  concat (replicate 2 (concat (replicate 5 (alert_pattern (buzzerPin a)))
                       ++ [Delay 1000]))
  ++ [NoTone (buzzerPin a)].

Definition playStartupSound_log (a : Alarm) : list Event :=
  [Tone (buzzerPin a) 2000 150; Delay 150; Tone (buzzerPin a) 2000 180; Delay 150;
   Tone (buzzerPin a) 2500 100; Delay 200; Tone (buzzerPin a) 3000 150; Delay 250;
   NoTone (buzzerPin a)].

Definition sendMessage_log (message : string) (gasLevel : Z) : list Event :=
  [GsmPrintln "AT+CMGF=1"; Delay 1000;
   GsmPrintln CMGS_command; Delay 1000;
   GsmPrintln message; GsmPrintln (format_gas_level 30 gasLevel);
   GsmWrite 26; Delay 1000].

(** The shape the modem dialogue would have if every part were followed by
    a one-second delay before the next, as the description of
    [sendMessage] words it: mode-set, delay, address, delay, the body
    lines, delay, terminator (and whatever follows the terminator). *)
Definition parts_separated_by_delays (evs : list Event) : Prop :=
  exists body rest,
    Forall (fun e => is_gsm_println e = true) body
    /\ evs = [GsmPrintln "AT+CMGF=1"; Delay 1000; GsmPrintln CMGS_command; Delay 1000]
             ++ body ++ [Delay 1000; GsmWrite 26] ++ rest.

Definition showMessage_log (line1 line2 : string) : list Event :=
  [LcdClear; LcdSetCursor 0 0; LcdPrint line1]
  ++ (if decide (first_char line2 <> NUL)
      then [LcdSetCursor 0 1; LcdPrint line2]
      else []).

(** Overwrite a row with [cs] from column [col] on, as repeated [print]
    of single characters does. *)
Fixpoint write_at (col : nat) (cs : list ascii) (row : list ascii) : list ascii :=
  match cs with
  | [] => row
  | c :: cs' => write_at (S col) cs' (<[col := c]> row)
  end.

Definition showGasLevel_log (level : Z) : list Event :=
  showMessage_log "Gas Scan is ON" (format_gas_level 16 level).

(** The calls of the Danger branch and of the Safe branch. *)
Definition danger_log (a : Alarm) (gasLevel : Z) : list Event :=
  trigger_log a
  ++ sendMessage_log "Excess Gas Detected" gasLevel
  ++ [SerialPrintln "Excess Gas Detected"]
  ++ playAlertSound_log a
  ++ showMessage_log "Gas Level Exceed" "SMS Sent".

Definition safe_log (a : Alarm) : list Event :=
  reset_log a
  ++ [SerialPrintln "Gas Level Normal"]
  ++ showMessage_log "Gas Level Normal" EmptyString.

(** The calls of one cycle that samples [gasLevel]. *)
Definition detect_log (d : GasLeakageDetector) (gasLevel : Z) : list Event :=
  [SerialPrint "Gas Level: "; SerialPrintln (itoa gasLevel)]
  ++ showGasLevel_log gasLevel
  ++ (if (gasLevel >? threshold d)%Z
      then danger_log (alarm d) gasLevel
      else safe_log (alarm d))
  ++ [Delay 1000].

Definition is_pin_write (e : Event) : bool :=
  match e with DigitalWrite _ _ => true | _ => false end.

Definition is_lcd (e : Event) : bool :=
  match e with LcdClear | LcdSetCursor _ _ | LcdPrint _ => true | _ => false end.

(** In [evs], every call of kind [P] comes before every call of kind [Q]. *)
Definition precedes (P Q : Event -> bool) (evs : list Event) : Prop :=
  forall i j e1 e2,
    evs !! i = Some e1 -> evs !! j = Some e2 ->
    P e1 = true -> Q e2 = true -> (i < j)%nat.

(** ** Reading a number back *)

Definition digit_val (c : ascii) : Z := Z.of_nat (nat_of_ascii c) - 48.

(** The value of a run of decimal digits, most significant first. *)
Fixpoint atou (acc : Z) (s : string) : Z :=
  match s with
  | EmptyString => acc
  | String c s' => atou (acc * 10 + digit_val c) s'
  end.

(** The inverse of [%d]: an optional minus sign, then digits. *)
Definition atoi (s : string) : Z :=
  match s with
  | EmptyString => 0
  | String c s' => if decide (c = "-"%char) then - atou 0 s' else atou 0 s
  end.

(** The text after the first [n] characters. *)
Fixpoint str_drop (n : nat) (s : string) : string :=
  match n, s with
  | S n', String _ s' => str_drop n' s'
  | _, _ => s
  end.

(** ** Time and the diagnostic port *)

(** Milliseconds spent in [delay] by the calls of a log. *)
Definition delay_total (evs : list Event) : Z :=
  fold_right (fun e t => match e with Delay ms => (ms + t)%Z | _ => t end) 0%Z evs.

Definition is_serial (e : Event) : bool :=
  match e with SerialPrint _ | SerialPrintln _ => true | _ => false end.

(** ** The loop of the runtime *)

(** The environment presents [r] on the analog pin of the sensor. *)
Definition sample (d : GasLeakageDetector) (r : Z) (w : World) : World :=
  mkWorld (pins w) (lcd w)
          (fun p => if decide (p = pin (sensor d)) then r else analog w p)
          (trace w).

(** Successive calls of [loop], one per reading the sensor delivers. *)
Fixpoint run_cycles (d : GasLeakageDetector) (readings : list Z) (w : World) : World :=
  match readings with
  | [] => w
  | r :: rest => run_cycles d rest (exec (detectAndRespond d) (sample d r w))
  end.

(** Readings that exceed the threshold. *)
Definition danger_count (d : GasLeakageDetector) (readings : list Z) : nat :=
  length (filter (fun r => (threshold d < r)%Z) readings).

(** The level of the red LED and the relay for a reading; the green LED
    carries the opposite one. *)
Definition alert_level (d : GasLeakageDetector) (r : Z) : Level :=
  if (r >? threshold d)%Z then HIGH else LOW.

Definition opposite (v : Level) : Level :=
  match v with LOW => HIGH | HIGH => LOW end.

(** ** Start-up: the global objects and [setup] *)

Inductive PinMode : Type := INPUT | OUTPUT.

(** The configuration calls of the constructors and of [setup].  They are
    recorded in order; the levels of the pins and the log of the other
    calls are left as they are. *)
Inductive Config : Type :=
| PinModeCall (pin : Z) (mode : PinMode)
| LcdAttach (pins : list Z)
| LcdBegin (cols rows : nat)
| GsmAttach (rx tx : Z)
| GsmBegin (baud : Z)
| SerialBegin (baud : Z).

Record Board : Type := mkBoard {
  world : World;
  config : list Config
}.

Definition configure (c : Config) (b : Board) : Board :=
  mkBoard (world b) (config b ++ [c]).

Definition on_world (m : IO unit) (b : Board) : Board :=
  mkBoard (exec m (world b)) (config b).

Definition LCD_PINS : list Z := [2; 3; 4; 5; 6; 7]%Z.
Definition GSM_PINS : list Z := [10; 11]%Z.

(** [GasSensor(int sensorPin)] *)
Definition GasSensor_new (sensorPin : Z) (b : Board) : GasSensor * Board :=
  let s := mkGasSensor sensorPin in
  (s, configure (PinModeCall (pin s) INPUT) b).

(** [Display(int pins[6])] *)
Definition Display_new (pins : list Z) (b : Board) : Board :=
  let b1 := configure (LcdAttach [nth 0 pins 0%Z; nth 1 pins 0%Z; nth 2 pins 0%Z;
                                  nth 3 pins 0%Z; nth 4 pins 0%Z; nth 5 pins 0%Z]) b in
  configure (LcdBegin 16 2) b1.

(** [Alarm(int pins[4])] *)
Definition Alarm_new (pins : list Z) (b : Board) : Alarm * Board :=
  let a := Alarm_of pins in
  let b1 := configure (PinModeCall (buzzerPin a) OUTPUT) b in
  let b2 := configure (PinModeCall (redLedPin a) OUTPUT) b1 in
  let b3 := configure (PinModeCall (greenLedPin a) OUTPUT) b2 in
  (a, configure (PinModeCall (relayPin a) OUTPUT) b3).

(** [GSMModule(int rx, int tx)] *)
Definition GSMModule_new (rx tx : Z) (b : Board) : Board :=
  configure (GsmBegin 9600) (configure (GsmAttach rx tx) b).

(** The global objects, constructed in the order of their definitions. *)
Definition construct_globals (b : Board) : GasLeakageDetector * Board :=
  let '(s, b1) := GasSensor_new GAS_SENSOR_PIN b in
  let b2 := Display_new LCD_PINS b1 in
  let '(a, b3) := Alarm_new ALARM_PINS b2 in
  let b4 := GSMModule_new (nth 0 GSM_PINS 0%Z) (nth 1 GSM_PINS 0%Z) b3 in
  (mkDetector s a THRESHOLD, b4).

Definition setup (b : Board) : Board :=
  let b1 := configure (SerialBegin 9600) b in
  let b2 := on_world (playStartupSound gasAlarm) b1 in
  let b3 := on_world (showMessage " Gas Leakage " "Detector Alarm") b2 in
  on_world (delay 7000) b3.

(** From power-up to the first call of [loop]. *)
Definition boot (b : Board) : Board :=
  setup (snd (construct_globals b)).

(** The mode each pin was last given. *)
Definition pin_modes (cfg : list Config) : gmap Z PinMode :=
  fold_left (fun m c => match c with
                        | PinModeCall p md => <[p := md]> m
                        | _ => m
                        end) cfg ∅.
(** ** Running programs: the laws *)

Section Laws.
Context {A B : Type}.

Lemma exec_bind (m : IO A) (k : A -> IO B) (w : World) :
  exec (m ≫= k) w = exec (k (eval m w)) (exec m w).
Proof. unfold exec, eval, mbind, IO_bind. destruct (m w); reflexivity. Qed.

Lemma eval_bind (m : IO A) (k : A -> IO B) (w : World) :
  eval (m ≫= k) w = eval (k (eval m w)) (exec m w).
Proof. unfold exec, eval, mbind, IO_bind. destruct (m w); reflexivity. Qed.

Lemma runs_bind (m : IO A) (k : A -> IO B) (w : World) (e1 e2 : list Event) :
  runs m w e1 ->
  runs (k (eval m w)) (exec m w) e2 ->
  runs (m ≫= k) w (e1 ++ e2).
Proof.
  intros (Ht1 & Hp1 & Hl1 & Ha1) (Ht2 & Hp2 & Hl2 & Ha2).
  unfold runs. rewrite exec_bind, !fold_left_app.
  rewrite Ht2, Hp2, Hl2, Ha2, Ht1, Hp1, Hl1, Ha1, app_assoc. auto.
Qed.
End Laws.

Lemma runs_ret {A} (a : A) (w : World) : runs (mret a) w [].
Proof. unfold runs. simpl. rewrite app_nil_r. auto. Qed.

Lemma runs_emit (e : Event) (w : World) :
  pins_step (pins w) e = pins w ->
  lcd_step (lcd w) e = lcd w ->
  runs (emit e) w [e].
Proof. intros Hp Hl. unfold runs. simpl. rewrite Hp, Hl. auto. Qed.

Lemma runs_digitalWrite (p : Z) (v : Level) (w : World) :
  runs (digitalWrite p v) w [DigitalWrite p v].
Proof. unfold runs. simpl. auto. Qed.

Lemma runs_tone (p f d : Z) (w : World) : runs (tone p f d) w [Tone p f d].
Proof. apply runs_emit; reflexivity. Qed.

Lemma runs_noTone (p : Z) (w : World) : runs (noTone p) w [NoTone p].
Proof. apply runs_emit; reflexivity. Qed.

Lemma runs_delay (ms : Z) (w : World) : runs (delay ms) w [Delay ms].
Proof. apply runs_emit; reflexivity. Qed.

Lemma runs_Serial_print (s : string) (w : World) :
  runs (Serial_print s) w [SerialPrint s].
Proof. apply runs_emit; reflexivity. Qed.

Lemma runs_Serial_println (s : string) (w : World) :
  runs (Serial_println s) w [SerialPrintln s].
Proof. apply runs_emit; reflexivity. Qed.

Lemma runs_mySerial_println (s : string) (w : World) :
  runs (mySerial_println s) w [GsmPrintln s].
Proof. apply runs_emit; reflexivity. Qed.

Lemma runs_mySerial_write (b : Z) (w : World) :
  runs (mySerial_write b) w [GsmWrite b].
Proof. apply runs_emit; reflexivity. Qed.

Lemma runs_lcd_clear (w : World) : runs lcd_clear_ w [LcdClear].
Proof. unfold runs. simpl. auto. Qed.

Lemma runs_lcd_setCursor (c r : nat) (w : World) :
  runs (lcd_setCursor_ c r) w [LcdSetCursor c r].
Proof. unfold runs. simpl. auto. Qed.

Lemma runs_lcd_print (s : string) (w : World) :
  runs (lcd_print_ s) w [LcdPrint s].
Proof. unfold runs. simpl. auto. Qed.

(** A loop whose body always logs [evs] logs them [n] times over. *)
Lemma runs_for_times (n : nat) (body : IO unit) (evs : list Event) :
  (forall w, runs body w evs) ->
  forall w, runs (for_times n body) w (concat (replicate n evs)).
Proof.
  intros Hbody. induction n as [|n IH]; intros w.
  - apply runs_ret.
  - simpl. apply runs_bind; [apply Hbody | apply IH].
Qed.

Create HintDb io discriminated.
#[export] Hint Resolve runs_ret runs_digitalWrite runs_tone runs_noTone
  runs_delay runs_Serial_print runs_Serial_println runs_mySerial_println
  runs_mySerial_write runs_lcd_clear runs_lcd_setCursor runs_lcd_print : io.

(** Split a sequence into its first call and the rest, then look the
    primitive up. *)
Ltac step_io :=
  lazymatch goal with
  | |- runs (_ ≫= _) _ (?e :: ?e' :: ?rest) =>
      change (e :: e' :: rest) with ([e] ++ (e' :: rest)); apply runs_bind
  | |- runs _ _ _ => solve [auto with io]
  end.

Ltac run_io := repeat step_io.

(** *** What each method logs *)

Lemma runs_trigger (a : Alarm) (w : World) : runs (trigger a) w (trigger_log a).
Proof. unfold trigger, trigger_log. run_io. Qed.

Lemma runs_reset (a : Alarm) (w : World) : runs (reset a) w (reset_log a).
Proof. unfold reset, reset_log. run_io. Qed.

(** The pin levels after each of the two methods, as updates of the map. *)
Lemma pins_trigger (a : Alarm) (w : World) :
  pins (exec (trigger a) w)
  = <[relayPin a := HIGH]> (<[greenLedPin a := LOW]> (<[redLedPin a := HIGH]> (pins w))).
Proof. reflexivity. Qed.

Lemma pins_reset (a : Alarm) (w : World) :
  pins (exec (reset a) w)
  = <[relayPin a := LOW]> (<[greenLedPin a := HIGH]>
      (<[redLedPin a := LOW]> (<[buzzerPin a := LOW]> (pins w)))).
Proof. reflexivity. Qed.

Lemma distinct_pins_neq (a : Alarm) :
  distinct_pins a ->
  buzzerPin a <> redLedPin a /\ buzzerPin a <> greenLedPin a
  /\ buzzerPin a <> relayPin a /\ redLedPin a <> greenLedPin a
  /\ redLedPin a <> relayPin a /\ greenLedPin a <> relayPin a.
Proof.
  unfold distinct_pins. rewrite !NoDup_cons, !not_elem_of_cons.
  intuition congruence.
Qed.

Lemma distinct_pins_gasAlarm : distinct_pins gasAlarm.
Proof.
  unfold distinct_pins. rewrite !NoDup_cons, !not_elem_of_cons.
  cbn. repeat split; try discriminate; try apply not_elem_of_nil; apply NoDup_nil_2.
Qed.

(** Decide every lookup through a stack of pin updates. *)
Ltac pin_lookups :=
  rewrite ?lookup_insert; repeat case_decide; subst;
  try congruence; try reflexivity.

(** ** The alarm outputs *)

(** C5: calling [trigger] twice leaves the output pins exactly as calling
    it once does, whatever the starting levels and whatever pins the alarm
    is wired to; the same holds for [reset]. *)
Theorem trigger_reset_idempotent (a : Alarm) (w : World) :
  pins (exec (trigger a) (exec (trigger a) w)) = pins (exec (trigger a) w)
  /\ pins (exec (reset a) (exec (reset a) w)) = pins (exec (reset a) w).
Proof.
  split.
  - rewrite !pins_trigger. apply map_eq; intros p. pin_lookups.
  - rewrite !pins_reset. apply map_eq; intros p. pin_lookups.
Qed.

(** C6: on an alarm wired to four different pins, [reset] after [trigger]
    leaves the buzzer low, the red LED low, the green LED high and the
    relay low, from every starting state; the pin levels are those [reset]
    alone would have produced, so nothing of the danger pattern remains. *)
Theorem reset_after_trigger_safe_pattern (a : Alarm) (w : World) :
  distinct_pins a ->
  let p := pins (exec (reset a) (exec (trigger a) w)) in
  p !! buzzerPin a = Some LOW
  /\ p !! redLedPin a = Some LOW
  /\ p !! greenLedPin a = Some HIGH
  /\ p !! relayPin a = Some LOW
  /\ p = pins (exec (reset a) w).
Proof.
  intros Hd. apply distinct_pins_neq in Hd.
  destruct Hd as (Hbr & Hbg & Hbl & Hrg & Hrl & Hgl).
  cbv zeta. rewrite !pins_reset, !pins_trigger.
  repeat split; [pin_lookups .. | ].
  apply map_eq; intros p. pin_lookups.
Qed.

Lemma reset_after_trigger_safe_pattern_witness :
  distinct_pins gasAlarm
  /\ (let p := pins (exec (reset gasAlarm) (exec (trigger gasAlarm) (power_on 700))) in
      p !! buzzerPin gasAlarm = Some LOW
      /\ p !! redLedPin gasAlarm = Some LOW
      /\ p !! greenLedPin gasAlarm = Some HIGH
      /\ p !! relayPin gasAlarm = Some LOW
      /\ p = pins (exec (reset gasAlarm) (power_on 700))).
Proof.
  assert (Hd : distinct_pins gasAlarm).
  { unfold distinct_pins. rewrite !NoDup_cons, !not_elem_of_cons.
    cbn. repeat split; try discriminate; try apply not_elem_of_nil; apply NoDup_nil_2. }
  split.
  - exact Hd.
  - exact (reset_after_trigger_safe_pattern gasAlarm (power_on 700) Hd).
Defined.

Lemma runs_playStartupSound (a : Alarm) (w : World) :
  runs (playStartupSound a) w (playStartupSound_log a).
Proof. unfold playStartupSound, playStartupSound_log. run_io. Qed.

Lemma runs_alert_pattern (b : Z) (w : World) :
  runs (tone b 2000 150 ;; delay 100 ;; tone b 4000 150 ;; delay 160 ;;
        tone b 2500 150 ;; delay 100 ;; tone b 4500 150 ;; delay 160)
       w (alert_pattern b).
Proof. unfold alert_pattern. run_io. Qed.

Lemma runs_playAlertSound (a : Alarm) (w : World) :
  runs (playAlertSound a) w (playAlertSound_log a).
Proof.
  unfold playAlertSound, playAlertSound_log.
  apply runs_bind; [ | auto with io].
  apply runs_for_times. clear w; intros w.
  apply runs_bind; [ | auto with io].
  apply runs_for_times. apply runs_alert_pattern.
Qed.

Lemma runs_sendMessage (message : string) (gasLevel : Z) (w : World) :
  runs (sendMessage message gasLevel) w (sendMessage_log message gasLevel).
Proof. unfold sendMessage, sendMessage_log. run_io. Qed.

(** C9: on an alarm wired to four different pins, [trigger] leaves the
    buzzer pin at the level it had, and every pin other than the red LED,
    the green LED and the relay unchanged; its log has no write to the
    buzzer pin, and neither have the logs of the two sound methods, which
    leave all pin levels alone; [reset] is the method that writes the
    buzzer pin, and it writes LOW. *)
Theorem trigger_never_writes_buzzer (a : Alarm) (w : World) :
  distinct_pins a ->
  pins (exec (trigger a) w) !! buzzerPin a = pins w !! buzzerPin a
  /\ (forall p, p <> redLedPin a -> p <> greenLedPin a -> p <> relayPin a ->
                pins (exec (trigger a) w) !! p = pins w !! p)
  /\ runs (trigger a) w (trigger_log a)
  /\ (forall v, DigitalWrite (buzzerPin a) v ∉ trigger_log a)
  /\ (forall v, DigitalWrite (buzzerPin a) v ∉ playStartupSound_log a)
  /\ (forall v, DigitalWrite (buzzerPin a) v ∉ playAlertSound_log a)
  /\ pins (exec (playStartupSound a) w) = pins w
  /\ pins (exec (playAlertSound a) w) = pins w
  /\ runs (reset a) w (reset_log a)
  /\ DigitalWrite (buzzerPin a) LOW ∈ reset_log a
  /\ pins (exec (reset a) w) !! buzzerPin a = Some LOW.
Proof.
  intros Hd. apply distinct_pins_neq in Hd.
  destruct Hd as (Hbr & Hbg & Hbl & Hrg & Hrl & Hgl).
  refine (conj _ (conj _ (conj _ (conj _ (conj _ (conj _
         (conj _ (conj _ (conj _ (conj _ _)))))))))).
  - rewrite pins_trigger. pin_lookups.
  - intros p Hr Hg Hl. rewrite pins_trigger. pin_lookups.
  - apply runs_trigger.
  - intros v. unfold trigger_log. rewrite !elem_of_cons, elem_of_nil.
    intros [H|[H|[H|[]]]]; congruence.
  - intros v. unfold playStartupSound_log.
    rewrite !elem_of_cons, elem_of_nil. intuition discriminate.
  - intros v. unfold playAlertSound_log, alert_pattern. cbn.
    rewrite !elem_of_cons, elem_of_nil. intuition discriminate.
  - reflexivity.
  - reflexivity.
  - apply runs_reset.
  - unfold reset_log. apply list_elem_of_here.
  - rewrite pins_reset. pin_lookups.
Qed.

Lemma trigger_never_writes_buzzer_witness :
  distinct_pins gasAlarm
  /\ pins (exec (trigger gasAlarm) (power_on 700)) !! buzzerPin gasAlarm
     = pins (power_on 700) !! buzzerPin gasAlarm
  /\ pins (exec (reset gasAlarm) (power_on 700)) !! buzzerPin gasAlarm = Some LOW.
Proof.
  assert (Hd : distinct_pins gasAlarm).
  { unfold distinct_pins. rewrite !NoDup_cons, !not_elem_of_cons.
    cbn. repeat split; try discriminate; try apply not_elem_of_nil; apply NoDup_nil_2. }
  destruct (trigger_never_writes_buzzer gasAlarm (power_on 700) Hd)
    as (Hkeep & _ & _ & _ & _ & _ & _ & _ & _ & _ & Hlow).
  split; [exact Hd | ].
  split; [exact Hkeep | exact Hlow].
Defined.

(** ** The alert tone *)

Lemma tone_count_app (l1 l2 : list Event) :
  tone_count (l1 ++ l2) = (tone_count l1 + tone_count l2)%nat.
Proof. unfold tone_count. rewrite filter_app, length_app. reflexivity. Qed.

(** C2, as the code has it: every invocation of [playAlertSound] logs two
    repetitions of an inner sequence made of five rounds of the four-tone
    pattern (2000, 4000, 2500 and 4500 Hz, 150 ms each, followed by delays
    of 100, 160, 100 and 160 ms), each repetition followed by a one-second
    delay, and then silences the tone line: 20 tones per repetition, 40
    tones in all, whatever the state of the board and the reading. *)
Theorem playAlertSound_forty_tones (a : Alarm) (w : World) :
  runs (playAlertSound a) w
       (concat (replicate 2 (concat (replicate 5 (alert_pattern (buzzerPin a)))
                             ++ [Delay 1000]))
        ++ [NoTone (buzzerPin a)])
  /\ tone_count (alert_pattern (buzzerPin a)) = 4%nat
  /\ tone_count (concat (replicate 5 (alert_pattern (buzzerPin a)))) = 20%nat
  /\ tone_count (trace (exec (playAlertSound a) w)) = (tone_count (trace w) + 40)%nat.
Proof.
  pose proof (runs_playAlertSound a w) as Hr.
  split; [exact Hr | ].
  split; [reflexivity | ].
  split; [reflexivity | ].
  destruct Hr as (Ht & _). rewrite Ht, tone_count_app. reflexivity.
Qed.

(** C2 as worded fails: one invocation on the alarm of the sketch plays 40
    tones, not 10. *)
Lemma playAlertSound_not_ten_tones :
  tone_count (trace (exec (playAlertSound gasAlarm) (power_on 501))) = 40%nat
  /\ tone_count (trace (exec (playAlertSound gasAlarm) (power_on 501))) <> 10%nat.
Proof. split; [reflexivity | discriminate]. Qed.

(** ** The modem dialogue *)

(** C3, as the code has it: for every message text and reading,
    [sendMessage] makes these calls in this order: println of the mode-set
    command, a one-second delay, println of the recipient-addressed send
    command, a one-second delay, println of the message text, println of
    the formatted "Gas Level: N" line, write of the byte 26, a one-second
    delay.  That is five calls on the serial port forming the four parts;
    a delay follows the first part, the second part and the terminator,
    and none stands between the body and the terminator. *)
Theorem sendMessage_sequence (message : string) (gasLevel : Z) (w : World) :
  runs (sendMessage message gasLevel) w
       [GsmPrintln "AT+CMGF=1"; Delay 1000;
        GsmPrintln CMGS_command; Delay 1000;
        GsmPrintln message; GsmPrintln (format_gas_level 30 gasLevel);
        GsmWrite 26; Delay 1000]
  /\ length (filter is_gsm (sendMessage_log message gasLevel)) = 5%nat
  /\ sms_count (sendMessage_log message gasLevel) = 1%nat.
Proof.
  split; [apply runs_sendMessage | ].
  split; reflexivity.
Qed.

(** C3 as worded fails: in the dialogue for the alert of the sketch at
    reading 501, no delay separates the body from the terminator byte. *)
Lemma sendMessage_no_delay_before_terminator :
  ~ parts_separated_by_delays
      (trace (exec (sendMessage "Excess Gas Detected" 501) (power_on 501))).
Proof.
  intros (body & rest & Hbody & Heq).
  change (trace (exec (sendMessage "Excess Gas Detected" 501) (power_on 501)))
    with (sendMessage_log "Excess Gas Detected" 501) in Heq.
  unfold sendMessage_log in Heq. cbn [app] in Heq.
  injection Heq as Heq.
  destruct body as [|b1 [|b2 [|b3 body]]]; cbn [app] in Heq; try discriminate Heq.
  injection Heq as _ _ Hb3 _.
  inversion Hbody as [|? ? _ Hb2]. inversion Hb2 as [|? ? _ Hb3'].
  inversion Hb3' as [|? ? Hp _]. subst. discriminate Hp.
Qed.

(** ** The display calls of [showMessage] *)

Lemma runs_showMessage (line1 line2 : string) (w : World) :
  runs (showMessage line1 line2) w (showMessage_log line1 line2).
Proof.
  unfold showMessage, showMessage_log. simpl app.
  apply (runs_bind _ _ _ [LcdClear]); [auto with io | ].
  apply (runs_bind _ _ _ [LcdSetCursor 0 0]); [auto with io | ].
  apply (runs_bind _ _ _ [LcdPrint line1]); [auto with io | ].
  destruct (decide (first_char line2 <> NUL)); run_io.
Qed.

(** ** Formatting the reading *)

Lemma str_take_all (n : nat) (s : string) :
  (String.length s <= n)%nat -> str_take n s = s.
Proof.
  revert n. induction s as [|c s IH]; intros [|n] Hlen; simpl in *; try reflexivity.
  - lia.
  - rewrite IH by lia. reflexivity.
Qed.

Lemma str_take_length (n : nat) (s : string) :
  (String.length (str_take n s) <= n)%nat.
Proof.
  revert s. induction n as [|n IH]; intros [|c s]; simpl; try lia.
  specialize (IH s). lia.
Qed.

Lemma string_app_length (s1 s2 : string) :
  String.length (s1 +:+ s2) = (String.length s1 + String.length s2)%nat.
Proof. induction s1 as [|c s1 IH]; simpl; [reflexivity | rewrite IH; reflexivity]. Qed.

(** A number below [10^k] is rendered with at most [k] digits. *)
Lemma utoa_length (fuel k : nat) (n : Z) (acc : string) :
  (0 <= n < 10 ^ Z.of_nat (S k))%Z ->
  (String.length (utoa fuel n acc) <= S k + String.length acc)%nat.
Proof.
  revert k n acc. induction fuel as [|fuel IH]; intros k n acc Hn; simpl.
  - lia.
  - destruct (n / 10 =? 0)%Z eqn:Hq.
    + simpl. lia.
    + apply Z.eqb_neq in Hq.
      destruct k as [|k].
      * exfalso. apply Hq. apply Z.div_small. simpl in Hn. lia.
      * assert (Hdiv : (0 <= n / 10 < 10 ^ Z.of_nat (S k))%Z).
        { split; [apply Z.div_pos; lia | ].
          apply Z.div_lt_upper_bound; [lia | ].
          rewrite <- Z.pow_succ_r by lia. rewrite <- Nat2Z.inj_succ. lia. }
        specialize (IH k (n / 10)%Z (String (digit_char (n mod 10)) acc) Hdiv).
        simpl in IH. lia.
Qed.

(** The fuel of [itoa] never runs out: one more unit changes nothing. *)
Lemma utoa_fuel_enough (fuel : nat) (n : Z) (acc : string) :
  (0 <= n < 2 ^ Z.of_nat (S fuel))%Z ->
  utoa (S (S fuel)) n acc = utoa (S fuel) n acc.
Proof.
  revert n acc. induction fuel as [|fuel IH]; intros n acc Hn.
  - simpl. replace (n / 10)%Z with 0%Z; [reflexivity | ].
    symmetry. apply Z.div_small. simpl in Hn. lia.
  - change (utoa (S (S (S fuel))) n acc)
      with (let acc' := String (digit_char (n mod 10)) acc in
            if (n / 10 =? 0)%Z then acc' else utoa (S (S fuel)) (n / 10) acc').
    change (utoa (S (S fuel)) n acc)
      with (let acc' := String (digit_char (n mod 10)) acc in
            if (n / 10 =? 0)%Z then acc' else utoa (S fuel) (n / 10) acc').
    cbv zeta. destruct (n / 10 =? 0)%Z; [reflexivity | ].
    apply IH. split; [apply Z.div_pos; lia | ].
    apply Z.div_lt_upper_bound; [lia | ].
    rewrite Nat2Z.inj_succ, Z.pow_succ_r in Hn by lia. lia.
Qed.

Lemma digits_fuel_enough (n : Z) :
  (0 <= n)%Z -> (0 <= n < 2 ^ Z.of_nat (digits_fuel n))%Z.
Proof.
  intros Hn. split; [exact Hn | ]. unfold digits_fuel.
  rewrite Nat2Z.inj_succ, Z2Nat.id by apply Z.log2_nonneg.
  destruct (Z.eq_dec n 0%Z) as [->|Hne]; [reflexivity | ].
  apply Z.log2_spec. lia.
Qed.

Lemma itoa_length_1023 (r : Z) :
  (0 <= r <= 1023)%Z -> (String.length (itoa r) <= 4)%nat.
Proof.
  intros Hr. unfold itoa.
  destruct (r <? 0)%Z eqn:Hneg; [apply Z.ltb_lt in Hneg; lia | ].
  pose proof (utoa_length (digits_fuel r) 3 r EmptyString) as H.
  simpl String.length in H. rewrite Nat.add_0_r in H. apply H.
  change (10 ^ Z.of_nat 4)%Z with 10000%Z. lia.
Qed.

(** C8: for every reading from 0 to 1023, "Gas Level: " followed by the
    decimal digits of the reading has at most 15 characters, so the 16-byte
    buffer of [showGasLevel] holds it whole: the formatting step returns
    the full text, and that text is what is printed on the second line. *)
Theorem showGasLevel_buffer_fits (r : Z) (w : World) :
  (0 <= r <= 1023)%Z ->
  (String.length ("Gas Level: " +:+ itoa r) <= 15)%nat
  /\ format_gas_level 16 r = "Gas Level: " +:+ itoa r
  /\ runs (showGasLevel r) w
          [LcdClear; LcdSetCursor 0 0; LcdPrint "Gas Scan is ON";
           LcdSetCursor 0 1; LcdPrint ("Gas Level: " +:+ itoa r)].
Proof.
  intros Hr.
  assert (Hlen : (String.length ("Gas Level: " +:+ itoa r) <= 15)%nat).
  { rewrite string_app_length. pose proof (itoa_length_1023 r Hr).
    simpl String.length. lia. }
  assert (Hfmt : format_gas_level 16 r = "Gas Level: " +:+ itoa r).
  { unfold format_gas_level, snprintf. apply str_take_all. simpl Nat.sub. exact Hlen. }
  split; [exact Hlen | ]. split; [exact Hfmt | ].
  unfold showGasLevel. cbv zeta. rewrite Hfmt.
  exact (runs_showMessage "Gas Scan is ON" ("Gas Level: " +:+ itoa r) w).
Qed.

Lemma showGasLevel_buffer_fits_witness :
  (0 <= 1023 <= 1023)%Z
  /\ (String.length ("Gas Level: " +:+ itoa 1023) <= 15)%nat
  /\ format_gas_level 16 1023 = "Gas Level: " +:+ itoa 1023.
Proof.
  split; [lia | ].
  destruct (showGasLevel_buffer_fits 1023 (power_on 1023)) as (Hlen & Hfmt & _); [lia | ].
  split; [exact Hlen | exact Hfmt].
Defined.

(** ** What the display shows *)

Lemma write_at_nil (col : nat) (cs : list ascii) : write_at col cs [] = [].
Proof. revert col. induction cs as [|c cs IH]; intros col; simpl; [reflexivity | apply IH]. Qed.

Lemma write_at_S (col : nat) (cs : list ascii) (r : ascii) (row : list ascii) :
  write_at (S col) cs (r :: row) = r :: write_at col cs row.
Proof.
  revert col row. induction cs as [|c cs IH]; intros col row; simpl; [reflexivity | ].
  apply IH.
Qed.

Lemma write_at_0 (cs row : list ascii) :
  write_at 0 cs row = take (length row) cs ++ drop (length cs) row.
Proof.
  revert row. induction cs as [|c cs IH]; intros row.
  - simpl. rewrite take_nil. reflexivity.
  - destruct row as [|r row].
    + simpl. apply write_at_nil.
    + simpl. rewrite write_at_S, IH. reflexivity.
Qed.

Lemma write_at_blank (s : string) :
  write_at 0 (list_ascii_of_string s) blank_row = shown s.
Proof.
  rewrite write_at_0. unfold shown, blank_row.
  rewrite length_replicate, drop_replicate. reflexivity.
Qed.

Lemma shown_length (s : string) : length (shown s) = lcd_cols.
Proof.
  unfold shown. rewrite length_app, length_take, length_replicate. lia.
Qed.

Lemma putc_row0 (cs : list ascii) (c : nat) (r0 r1 : list ascii) :
  fold_left lcd_putc cs (mkLcd c 0 r0 r1)
  = mkLcd (c + length cs) 0 (write_at c cs r0) r1.
Proof.
  revert c r0. induction cs as [|x cs IH]; intros c r0; simpl.
  - rewrite Nat.add_0_r. reflexivity.
  - unfold lcd_putc at 2. simpl. rewrite IH. f_equal. lia.
Qed.

Lemma putc_row1 (cs : list ascii) (c : nat) (r0 r1 : list ascii) :
  fold_left lcd_putc cs (mkLcd c 1 r0 r1)
  = mkLcd (c + length cs) 1 r0 (write_at c cs r1).
Proof.
  revert c r1. induction cs as [|x cs IH]; intros c r1; simpl.
  - rewrite Nat.add_0_r. reflexivity.
  - unfold lcd_putc at 2. simpl. rewrite IH. f_equal. lia.
Qed.

Lemma c_str_first_NUL (s : string) :
  first_char s = NUL -> c_str s = EmptyString.
Proof.
  destruct s as [|c s]; simpl; [reflexivity | ].
  intros ->. destruct (decide (NUL = NUL)); [reflexivity | congruence].
Qed.

(** Replaying the calls of [showMessage] on any display contents. *)
Lemma rows_showMessage_log (line1 line2 : string) (l : Lcd) :
  row0 (fold_left lcd_step (showMessage_log line1 line2) l) = shown (c_str line1)
  /\ row1 (fold_left lcd_step (showMessage_log line1 line2) l) = shown (c_str line2).
Proof.
  unfold showMessage_log.
  destruct (decide (first_char line2 <> NUL)) as [Hne|He];
    cbn [app fold_left lcd_step lcd_clear].
  - unfold lcd_print, lcd_setCursor, lcd_blank. cbn [row0 row1].
    rewrite putc_row0. cbn [row0 row1]. rewrite putc_row1. cbn [row0 row1].
    rewrite !write_at_blank. auto.
  - unfold lcd_print, lcd_setCursor, lcd_blank. cbn [row0 row1].
    rewrite putc_row0. cbn [row0 row1].
    rewrite write_at_blank. split; [reflexivity | ].
    rewrite c_str_first_NUL; [reflexivity | ].
    destruct (decide (first_char line2 = NUL)); [assumption | contradiction].
Qed.

(** The display after [showMessage], from any earlier contents. *)
Lemma lcd_showMessage (line1 line2 : string) (w : World) :
  row0 (lcd (exec (showMessage line1 line2) w)) = shown (c_str line1)
  /\ row1 (lcd (exec (showMessage line1 line2) w)) = shown (c_str line2).
Proof.
  destruct (runs_showMessage line1 line2 w) as (_ & _ & Hl & _).
  rewrite Hl. apply rows_showMessage_log.
Qed.

(** C10: for all strings [line1] and [line2], [showMessage] clears the
    display, puts the cursor at the start of the first row and prints
    [line1] there; it puts the cursor at the start of the second row and
    prints [line2] exactly when the first character of [line2] is not NUL.
    Afterwards the first row shows [line1] and the second row shows
    [line2], which is a blank row when [line2] starts with NUL; with
    [line2] omitted the calls stop after the first row and the second row
    is blank. *)
Theorem showMessage_rows (line1 line2 : string) (w : World) :
  runs (showMessage line1 line2) w
       ([LcdClear; LcdSetCursor 0 0; LcdPrint line1]
        ++ (if decide (first_char line2 <> NUL)
            then [LcdSetCursor 0 1; LcdPrint line2]
            else []))
  /\ bool_decide (LcdSetCursor 0 1 ∈ showMessage_log line1 line2)
     = bool_decide (first_char line2 <> NUL)
  /\ row0 (lcd (exec (showMessage line1 line2) w)) = shown (c_str line1)
  /\ row1 (lcd (exec (showMessage line1 line2) w))
     = (if decide (first_char line2 <> NUL) then shown (c_str line2) else blank_row)
  /\ runs (showMessage_1 line1) w [LcdClear; LcdSetCursor 0 0; LcdPrint line1]
  /\ row1 (lcd (exec (showMessage_1 line1) w)) = blank_row.
Proof.
  refine (conj _ (conj _ (conj _ (conj _ (conj _ _))))).
  - apply runs_showMessage.
  - unfold showMessage_log. apply bool_decide_ext.
    destruct (decide (first_char line2 <> NUL)) as [Hne|He]; simpl.
    + split; [intros _; exact Hne | intros _].
      rewrite !elem_of_cons. auto.
    + split; [ | intros Hne; contradiction].
      rewrite !elem_of_cons, elem_of_nil. intros [H|[H|[H|[]]]]; discriminate H.
  - apply lcd_showMessage.
  - destruct (lcd_showMessage line1 line2 w) as (_ & H1). rewrite H1.
    destruct (decide (first_char line2 <> NUL)) as [Hne|He]; [reflexivity | ].
    rewrite c_str_first_NUL; [reflexivity | ].
    destruct (decide (first_char line2 = NUL)); [assumption | contradiction].
  - exact (runs_showMessage line1 EmptyString w).
  - unfold showMessage_1.
    destruct (lcd_showMessage line1 EmptyString w) as (_ & H1). rewrite H1. reflexivity.
Qed.

(** ** One cycle of the controller *)

Lemma runs_readGasLevel (s : GasSensor) (w : World) : runs (readGasLevel s) w [].
Proof. unfold runs. simpl. rewrite app_nil_r. auto. Qed.

Lemma runs_showGasLevel (level : Z) (w : World) :
  runs (showGasLevel level) w (showGasLevel_log level).
Proof. unfold showGasLevel, showGasLevel_log. apply runs_showMessage. Qed.

Lemma runs_danger (a : Alarm) (gasLevel : Z) (w : World) :
  runs (trigger a ;;
        sendMessage "Excess Gas Detected" gasLevel ;;
        Serial_println "Excess Gas Detected" ;;
        playAlertSound a ;;
        showMessage "Gas Level Exceed" "SMS Sent")
       w (danger_log a gasLevel).
Proof.
  unfold danger_log.
  apply runs_bind; [apply runs_trigger | ].
  apply runs_bind; [apply runs_sendMessage | ].
  apply runs_bind; [auto with io | ].
  apply runs_bind; [apply runs_playAlertSound | apply runs_showMessage].
Qed.

Lemma runs_safe (a : Alarm) (w : World) :
  runs (reset a ;;
        Serial_println "Gas Level Normal" ;;
        showMessage_1 "Gas Level Normal")
       w (safe_log a).
Proof.
  unfold safe_log.
  apply runs_bind; [apply runs_reset | ].
  apply runs_bind; [auto with io | apply runs_showMessage].
Qed.

Lemma runs_detectAndRespond (d : GasLeakageDetector) (w : World) :
  runs (detectAndRespond d) w (detect_log d (analog w (pin (sensor d)))).
Proof.
  unfold detectAndRespond, detect_log.
  apply (runs_bind _ _ _ []); [apply runs_readGasLevel | ].
  change (eval (readGasLevel (sensor d)) w) with (analog w (pin (sensor d))).
  change (exec (readGasLevel (sensor d)) w) with w.
  set (r := analog w (pin (sensor d))).
  apply (runs_bind _ _ _ [SerialPrint "Gas Level: "]); [auto with io | ].
  apply (runs_bind _ _ _ [SerialPrintln (itoa r)]); [auto with io | ].
  apply runs_bind; [apply runs_showGasLevel | ].
  apply runs_bind; [ | auto with io].
  destruct (r >? threshold d)%Z; [apply runs_danger | apply runs_safe].
Qed.

Lemma fold_pins_no_write (evs : list Event) (p : gmap Z Level) :
  forallb (fun e => negb (is_pin_write e)) evs = true ->
  fold_left pins_step evs p = p.
Proof.
  revert p. induction evs as [|e evs IH]; intros p H; simpl in *; [reflexivity | ].
  apply andb_prop in H as [He Hevs]. rewrite IH by exact Hevs.
  destruct e; simpl in *; try reflexivity. discriminate He.
Qed.

Lemma fold_lcd_no_lcd (evs : list Event) (l : Lcd) :
  forallb (fun e => negb (is_lcd e)) evs = true ->
  fold_left lcd_step evs l = l.
Proof.
  revert l. induction evs as [|e evs IH]; intros l H; simpl in *; [reflexivity | ].
  apply andb_prop in H as [He Hevs]. rewrite IH by exact Hevs.
  destruct e; simpl in *; try reflexivity; discriminate He.
Qed.

Lemma showMessage_log_no_write (line1 line2 : string) :
  forallb (fun e => negb (is_pin_write e)) (showMessage_log line1 line2) = true.
Proof. unfold showMessage_log. destruct (decide (first_char line2 <> NUL)); reflexivity. Qed.

Lemma showGasLevel_log_eq (level : Z) :
  showGasLevel_log level
  = [LcdClear; LcdSetCursor 0 0; LcdPrint "Gas Scan is ON";
     LcdSetCursor 0 1; LcdPrint (format_gas_level 16 level)].
Proof. reflexivity. Qed.

Lemma sms_count_app (l1 l2 : list Event) :
  sms_count (l1 ++ l2) = (sms_count l1 + sms_count l2)%nat.
Proof. unfold sms_count. rewrite filter_app, length_app. reflexivity. Qed.

(** The pins after a cycle are those [trigger] or [reset] alone leaves. *)
Lemma pins_detectAndRespond (d : GasLeakageDetector) (w : World) :
  pins (exec (detectAndRespond d) w)
  = if (analog w (pin (sensor d)) >? threshold d)%Z
    then pins (exec (trigger (alarm d)) w)
    else pins (exec (reset (alarm d)) w).
Proof.
  destruct (runs_detectAndRespond d w) as (_ & Hp & _).
  rewrite Hp. unfold detect_log.
  set (r := analog w (pin (sensor d))).
  rewrite !fold_left_app. cbn [fold_left pins_step].
  rewrite (fold_pins_no_write (showGasLevel_log r)) by apply showMessage_log_no_write.
  destruct (r >? threshold d)%Z.
  - unfold danger_log. rewrite !fold_left_app.
    rewrite (fold_pins_no_write (showMessage_log _ _)) by apply showMessage_log_no_write.
    rewrite (fold_pins_no_write (playAlertSound_log _)) by reflexivity.
    reflexivity.
  - unfold safe_log. rewrite !fold_left_app.
    rewrite (fold_pins_no_write (showMessage_log _ _)) by apply showMessage_log_no_write.
    reflexivity.
Qed.

(** The display after a cycle is the one the last [showMessage] leaves. *)
Lemma lcd_detectAndRespond (d : GasLeakageDetector) (w : World) :
  let l := lcd (exec (detectAndRespond d) w) in
  if (analog w (pin (sensor d)) >? threshold d)%Z
  then row0 l = shown "Gas Level Exceed" /\ row1 l = shown "SMS Sent"
  else row0 l = shown "Gas Level Normal" /\ row1 l = blank_row.
Proof.
  cbv zeta. destruct (runs_detectAndRespond d w) as (_ & _ & Hl & _).
  rewrite Hl. unfold detect_log.
  set (r := analog w (pin (sensor d))).
  destruct (r >? threshold d)%Z.
  - unfold danger_log. rewrite !app_assoc, !fold_left_app.
    cbn [fold_left lcd_step]. apply rows_showMessage_log.
  - unfold safe_log. rewrite !app_assoc, !fold_left_app.
    cbn [fold_left lcd_step]. apply rows_showMessage_log.
Qed.

Lemma precedes_split (P Q : Event -> bool) (l1 l2 : list Event) :
  forallb (fun e => negb (Q e)) l1 = true ->
  forallb (fun e => negb (P e)) l2 = true ->
  precedes P Q (l1 ++ l2).
Proof.
  intros H1 H2 i j e1 e2 Hi Hj HP HQ.
  rewrite forallb_forall in H1, H2.
  destruct (Nat.lt_ge_cases i (length l1)) as [Hlt|Hge].
  - destruct (Nat.lt_ge_cases j (length l1)) as [Hjlt|Hjge]; [ | lia].
    rewrite lookup_app_l in Hj by exact Hjlt.
    apply list_elem_of_lookup_2, list_elem_of_In, H1 in Hj.
    rewrite HQ in Hj. discriminate Hj.
  - rewrite lookup_app_r in Hi by exact Hge.
    apply list_elem_of_lookup_2, list_elem_of_In, H2 in Hi.
    rewrite HP in Hi. discriminate Hi.
Qed.

(** C4: in a cycle whose reading exceeds the threshold, the calls come in
    this order: the reading is logged and shown, then the pin writes of
    [trigger], then the whole modem dialogue of [sendMessage], then the
    diagnostic line, then the tones of [playAlertSound], then the display
    update "Gas Level Exceed" / "SMS Sent", then the closing one-second
    delay.  Within the branch every pin write precedes every modem call,
    every modem call precedes every tone, and every tone precedes every
    display call. *)
Theorem danger_branch_order (d : GasLeakageDetector) (w : World) :
  (analog w (pin (sensor d)) > threshold d)%Z ->
  let r := analog w (pin (sensor d)) in
  runs (detectAndRespond d) w
       (([SerialPrint "Gas Level: "; SerialPrintln (itoa r)] ++ showGasLevel_log r)
        ++ trigger_log (alarm d)
        ++ sendMessage_log "Excess Gas Detected" r
        ++ [SerialPrintln "Excess Gas Detected"]
        ++ playAlertSound_log (alarm d)
        ++ showMessage_log "Gas Level Exceed" "SMS Sent"
        ++ [Delay 1000])
  /\ (forall w1, runs (trigger (alarm d)) w1 (trigger_log (alarm d)))
  /\ (forall w1, runs (sendMessage "Excess Gas Detected" r) w1
                      (sendMessage_log "Excess Gas Detected" r))
  /\ (forall w1, runs (playAlertSound (alarm d)) w1 (playAlertSound_log (alarm d)))
  /\ (forall w1, runs (showMessage "Gas Level Exceed" "SMS Sent") w1
                      (showMessage_log "Gas Level Exceed" "SMS Sent"))
  /\ precedes is_pin_write is_gsm (danger_log (alarm d) r)
  /\ precedes is_gsm is_tone (danger_log (alarm d) r)
  /\ precedes is_tone is_lcd (danger_log (alarm d) r).
Proof.
  intros Hgt r.
  refine (conj _ (conj _ (conj _ (conj _ (conj _ (conj _ (conj _ _))))))).
  - pose proof (runs_detectAndRespond d w) as Hr.
    unfold detect_log in Hr. fold r in Hr.
    replace (r >? threshold d)%Z with true in Hr
      by (symmetry; apply Z.gtb_gt; exact Hgt).
    unfold danger_log in Hr. rewrite <- !app_assoc in *. exact Hr.
  - intros w1. apply runs_trigger.
  - intros w1. apply runs_sendMessage.
  - intros w1. apply runs_playAlertSound.
  - intros w1. apply runs_showMessage.
  - unfold danger_log. apply precedes_split; reflexivity.
  - change (danger_log (alarm d) r)
      with ((trigger_log (alarm d) ++ sendMessage_log "Excess Gas Detected" r
             ++ [SerialPrintln "Excess Gas Detected"])
            ++ (playAlertSound_log (alarm d)
                ++ showMessage_log "Gas Level Exceed" "SMS Sent")).
    apply precedes_split; reflexivity.
  - change (danger_log (alarm d) r)
      with ((trigger_log (alarm d) ++ sendMessage_log "Excess Gas Detected" r
             ++ [SerialPrintln "Excess Gas Detected"] ++ playAlertSound_log (alarm d))
            ++ showMessage_log "Gas Level Exceed" "SMS Sent").
    apply precedes_split; reflexivity.
Qed.

Lemma danger_branch_order_witness :
  (analog (power_on 501) (pin (sensor detector)) > threshold detector)%Z
  /\ runs (detectAndRespond detector) (power_on 501)
          (([SerialPrint "Gas Level: "; SerialPrintln (itoa 501)] ++ showGasLevel_log 501)
           ++ trigger_log gasAlarm
           ++ sendMessage_log "Excess Gas Detected" 501
           ++ [SerialPrintln "Excess Gas Detected"]
           ++ playAlertSound_log gasAlarm
           ++ showMessage_log "Gas Level Exceed" "SMS Sent"
           ++ [Delay 1000])
  /\ precedes is_pin_write is_gsm (danger_log gasAlarm 501)
  /\ precedes is_gsm is_tone (danger_log gasAlarm 501)
  /\ precedes is_tone is_lcd (danger_log gasAlarm 501).
Proof.
  assert (Hgt : (analog (power_on 501) (pin (sensor detector)) > threshold detector)%Z)
    by reflexivity.
  destruct (danger_branch_order detector (power_on 501) Hgt)
    as (Hrun & _ & _ & _ & _ & H1 & H2 & H3).
  split; [exact Hgt | ].
  split; [exact Hrun | ].
  split; [exact H1 | ]. split; [exact H2 | exact H3].
Defined.

(** C1: for every reading [r] sampled by a cycle of the sketch's detector
    (threshold 500), the cycle takes the Danger branch exactly when
    [r > 500]: then the red LED is high, the green LED low and the relay
    high, one message is handed to the modem, the 40 alert tones are
    played and the display ends on "Gas Level Exceed" / "SMS Sent".
    Otherwise it takes the Safe branch: buzzer low, red LED low, green LED
    high, relay low, no modem call, no tone, and the display ends on
    "Gas Level Normal" over a blank second row.  A reading of 500 is Safe
    and a reading of 501 is Danger. *)
Theorem detectAndRespond_threshold (w : World) :
  let r := analog w (pin (sensor detector)) in
  let w' := exec (detectAndRespond detector) w in
  threshold detector = 500%Z
  /\ runs (detectAndRespond detector) w
          ([SerialPrint "Gas Level: "; SerialPrintln (itoa r)]
           ++ showGasLevel_log r
           ++ (if (r >? 500)%Z then danger_log gasAlarm r else safe_log gasAlarm)
           ++ [Delay 1000])
  /\ (if (r >? 500)%Z
      then pins w' !! redLedPin gasAlarm = Some HIGH
           /\ pins w' !! greenLedPin gasAlarm = Some LOW
           /\ pins w' !! relayPin gasAlarm = Some HIGH
           /\ sms_count (detect_log detector r) = 1%nat
           /\ filter is_gsm (detect_log detector r)
              = filter is_gsm (sendMessage_log "Excess Gas Detected" r)
           /\ tone_count (detect_log detector r) = 40%nat
           /\ row0 (lcd w') = shown "Gas Level Exceed"
           /\ row1 (lcd w') = shown "SMS Sent"
      else pins w' !! buzzerPin gasAlarm = Some LOW
           /\ pins w' !! redLedPin gasAlarm = Some LOW
           /\ pins w' !! greenLedPin gasAlarm = Some HIGH
           /\ pins w' !! relayPin gasAlarm = Some LOW
           /\ sms_count (detect_log detector r) = 0%nat
           /\ filter is_gsm (detect_log detector r) = []
           /\ tone_count (detect_log detector r) = 0%nat
           /\ row0 (lcd w') = shown "Gas Level Normal"
           /\ row1 (lcd w') = blank_row)
  /\ (500 >? threshold detector)%Z = false
  /\ (501 >? threshold detector)%Z = true.
Proof.
  intros r w'.
  split; [reflexivity | ].
  split; [exact (runs_detectAndRespond detector w) | ].
  split; [ | split; reflexivity].
  pose proof (pins_detectAndRespond detector w) as Hp.
  pose proof (lcd_detectAndRespond detector w) as Hl.
  cbv zeta in Hl. fold r w' in Hp, Hl.
  change (threshold detector) with 500%Z in Hp, Hl.
  unfold detect_log. change (threshold detector) with 500%Z.
  destruct (r >? 500)%Z.
  - destruct Hl as (Hl0 & Hl1). rewrite Hp, pins_trigger.
    change (alarm detector) with gasAlarm.
    change (redLedPin gasAlarm) with 9%Z. change (greenLedPin gasAlarm) with 8%Z.
    change (relayPin gasAlarm) with 12%Z.
    repeat split; first [assumption | reflexivity | pin_lookups].
  - destruct Hl as (Hl0 & Hl1). rewrite Hp, pins_reset.
    change (alarm detector) with gasAlarm.
    change (redLedPin gasAlarm) with 9%Z. change (greenLedPin gasAlarm) with 8%Z.
    change (relayPin gasAlarm) with 12%Z. change (buzzerPin gasAlarm) with 13%Z.
    repeat split; first [assumption | reflexivity | pin_lookups].
Qed.

(** C7: a cycle of the sketch's detector (threshold 500) that reads 300
    takes the Safe branch.  Its calls are, in order: the diagnostic
    reading, the display update "Gas Scan is ON" / "Gas Level: 300", the
    four pin writes of [reset], the diagnostic line, the display update
    "Gas Level Normal", the closing delay.  The display shows
    "Gas Scan is ON" over "Gas Level: 300" after the first update and
    "Gas Level Normal" over a blank row at the end, and no call goes to
    the modem. *)
Theorem scenario_reading_300 (w : World) :
  analog w (pin (sensor detector)) = 300%Z ->
  let shown_first :=
    fold_left lcd_step
      [SerialPrint "Gas Level: "; SerialPrintln "300";
       LcdClear; LcdSetCursor 0 0; LcdPrint "Gas Scan is ON";
       LcdSetCursor 0 1; LcdPrint "Gas Level: 300"] (lcd w) in
  threshold detector = 500%Z
  /\ runs loop w
          ([SerialPrint "Gas Level: "; SerialPrintln "300";
            LcdClear; LcdSetCursor 0 0; LcdPrint "Gas Scan is ON";
            LcdSetCursor 0 1; LcdPrint "Gas Level: 300"]
           ++ [DigitalWrite 13 LOW; DigitalWrite 9 LOW;
               DigitalWrite 8 HIGH; DigitalWrite 12 LOW;
               SerialPrintln "Gas Level Normal";
               LcdClear; LcdSetCursor 0 0; LcdPrint "Gas Level Normal";
               Delay 1000])
  /\ row0 shown_first = shown "Gas Scan is ON"
  /\ row1 shown_first = shown "Gas Level: 300"
  /\ row0 (lcd (exec (showGasLevel 300) w)) = shown "Gas Scan is ON"
  /\ row1 (lcd (exec (showGasLevel 300) w)) = shown "Gas Level: 300"
  /\ row0 (lcd (exec loop w)) = shown "Gas Level Normal"
  /\ row1 (lcd (exec loop w)) = blank_row
  /\ filter is_gsm (detect_log detector 300) = []
  /\ sms_count (detect_log detector 300) = 0%nat.
Proof.
  intros Hr shown_first.
  pose proof (runs_detectAndRespond detector w) as Hrun.
  pose proof (lcd_detectAndRespond detector w) as Hl.
  cbv zeta in Hl. rewrite Hr in Hrun, Hl.
  change (300 >? threshold detector)%Z with false in Hl.
  destruct Hl as (Hl0 & Hl1).
  refine (conj _ (conj _ (conj _ (conj _ (conj _ (conj _ (conj _ (conj _ (conj _ _))))))))).
  - reflexivity.
  - exact Hrun.
  - apply (rows_showMessage_log "Gas Scan is ON" "Gas Level: 300" (lcd w)).
  - apply (rows_showMessage_log "Gas Scan is ON" "Gas Level: 300" (lcd w)).
  - apply (lcd_showMessage "Gas Scan is ON" "Gas Level: 300" w).
  - apply (lcd_showMessage "Gas Scan is ON" "Gas Level: 300" w).
  - exact Hl0.
  - exact Hl1.
  - reflexivity.
  - reflexivity.
Qed.

Lemma scenario_reading_300_witness :
  analog (power_on 300) (pin (sensor detector)) = 300%Z
  /\ row0 (lcd (exec loop (power_on 300))) = shown "Gas Level Normal"
  /\ row1 (lcd (exec loop (power_on 300))) = blank_row
  /\ filter is_gsm (detect_log detector 300) = [].
Proof.
  assert (Hr : analog (power_on 300) (pin (sensor detector)) = 300%Z) by reflexivity.
  destruct (scenario_reading_300 (power_on 300) Hr)
    as (_ & _ & _ & _ & _ & _ & H0 & H1 & Hg & _).
  split; [exact Hr | ].
  split; [exact H0 | ]. split; [exact H1 | exact Hg].
Defined.

(** ** More on formatting: every value of the number *)

Lemma string_app_assoc (s1 s2 s3 : string) :
  (s1 +:+ s2) +:+ s3 = s1 +:+ (s2 +:+ s3).
Proof.
  induction s1 as [|c s1 IH]; [reflexivity | ].
  change (String c ((s1 +:+ s2) +:+ s3) = String c (s1 +:+ s2 +:+ s3)).
  rewrite IH. reflexivity.
Qed.

(** The digits already produced ride along unchanged. *)
Lemma utoa_acc (fuel : nat) (n : Z) (acc : string) :
  utoa fuel n acc = utoa fuel n EmptyString +:+ acc.
Proof.
  revert n acc. induction fuel as [|fuel IH]; intros n acc; simpl; [reflexivity | ].
  destruct (n / 10 =? 0)%Z; [reflexivity | ].
  rewrite (IH (n / 10)%Z (String (digit_char (n mod 10)) acc)).
  rewrite (IH (n / 10)%Z (String (digit_char (n mod 10)) EmptyString)).
  rewrite string_app_assoc. reflexivity.
Qed.

Lemma atou_app (s1 s2 : string) (v : Z) :
  atou v (s1 +:+ s2) = atou (atou v s1) s2.
Proof. revert v. induction s1 as [|c s1 IH]; intros v; simpl; [reflexivity | apply IH]. Qed.

Lemma digit_char_code (d : Z) :
  (0 <= d < 10)%Z -> nat_of_ascii (digit_char d) = (48 + Z.to_nat d)%nat.
Proof. intros Hd. unfold digit_char. apply nat_ascii_embedding. lia. Qed.

Lemma digit_val_char (d : Z) : (0 <= d < 10)%Z -> digit_val (digit_char d) = d.
Proof. intros Hd. unfold digit_val. rewrite digit_char_code by exact Hd. lia. Qed.

Lemma digit_char_not_minus (d : Z) : (0 <= d < 10)%Z -> digit_char d <> "-"%char.
Proof.
  intros Hd Heq. apply (f_equal nat_of_ascii) in Heq.
  rewrite digit_char_code in Heq by exact Hd.
  change (nat_of_ascii "-"%char) with 45%nat in Heq. lia.
Qed.

Lemma atou_utoa (fuel : nat) (n : Z) :
  (0 <= n < 2 ^ Z.of_nat fuel)%Z -> atou 0 (utoa fuel n EmptyString) = n.
Proof.
  revert n. induction fuel as [|fuel IH]; intros n Hn.
  - simpl in *. lia.
  - rewrite Nat2Z.inj_succ, Z.pow_succ_r in Hn by lia.
    pose proof (Z.mod_pos_bound n 10 ltac:(lia)) as Hmod.
    pose proof (Z.div_mod n 10 ltac:(lia)) as Hdm.
    simpl. destruct (n / 10 =? 0)%Z eqn:Hq.
    + apply Z.eqb_eq in Hq. simpl. rewrite digit_val_char by exact Hmod. lia.
    + rewrite utoa_acc, atou_app. rewrite IH.
      * simpl. rewrite digit_val_char by exact Hmod. lia.
      * split; [apply Z.div_pos; lia | apply Z.div_lt_upper_bound; lia].
Qed.

(** The rendering always starts with a digit, never with a sign. *)
Lemma utoa_head (fuel : nat) (n : Z) (acc : string) :
  exists d s, (0 <= d < 10)%Z /\ utoa (S fuel) n acc = String (digit_char d) s.
Proof.
  revert n acc. induction fuel as [|fuel IH]; intros n acc.
  - exists (n mod 10)%Z. simpl. destruct (n / 10 =? 0)%Z; eexists;
      (split; [apply Z.mod_pos_bound; lia | reflexivity]).
  - change (utoa (S (S fuel)) n acc)
      with (let acc' := String (digit_char (n mod 10)) acc in
            if (n / 10 =? 0)%Z then acc' else utoa (S fuel) (n / 10) acc').
    cbv zeta. destruct (n / 10 =? 0)%Z.
    + exists (n mod 10)%Z. eexists. split; [apply Z.mod_pos_bound; lia | reflexivity].
    + apply IH.
Qed.

Lemma atoi_itoa (n : Z) : atoi (itoa n) = n.
Proof.
  unfold itoa. destruct (n <? 0)%Z eqn:Hneg.
  - apply Z.ltb_lt in Hneg. unfold atoi.
    destruct (decide ("-"%char = "-"%char)); [ | congruence].
    rewrite atou_utoa by (apply digits_fuel_enough; lia). lia.
  - apply Z.ltb_ge in Hneg.
    pose proof (atou_utoa (digits_fuel n) n (digits_fuel_enough n Hneg)) as Hval.
    unfold digits_fuel in *.
    destruct (utoa_head (Z.to_nat (Z.log2 n)) n EmptyString) as (d & s & Hd & Hs).
    rewrite Hs in *. unfold atoi.
    destruct (decide (digit_char d = "-"%char)) as [He|_]; [ | exact Hval].
    exfalso. exact (digit_char_not_minus d Hd He).
Qed.

Lemma utoa_length_acc (fuel : nat) (n : Z) (acc : string) :
  (String.length acc <= String.length (utoa fuel n acc))%nat.
Proof.
  revert n acc. induction fuel as [|fuel IH]; intros n acc; simpl; [lia | ].
  destruct (n / 10 =? 0)%Z; simpl; [lia | ].
  specialize (IH (n / 10)%Z (String (digit_char (n mod 10)) acc)). simpl in IH. lia.
Qed.

(** A number of at least [10^k] is rendered with more than [k] digits. *)
Lemma utoa_length_ge (fuel k : nat) (n : Z) (acc : string) :
  (10 ^ Z.of_nat k <= n < 2 ^ Z.of_nat fuel)%Z ->
  (S k + String.length acc <= String.length (utoa fuel n acc))%nat.
Proof.
  revert k n acc. induction fuel as [|fuel IH]; intros k n acc Hn.
  - exfalso. assert (0 < 10 ^ Z.of_nat k)%Z by (apply Z.pow_pos_nonneg; lia).
    simpl in Hn. lia.
  - rewrite (Nat2Z.inj_succ fuel), Z.pow_succ_r in Hn by lia.
    assert (Hk : (0 < 10 ^ Z.of_nat k)%Z) by (apply Z.pow_pos_nonneg; lia).
    simpl. destruct (n / 10 =? 0)%Z eqn:Hq.
    + apply Z.eqb_eq in Hq.
      assert (n < 10)%Z.
      { pose proof (Z.div_mod n 10 ltac:(lia)).
        pose proof (Z.mod_pos_bound n 10 ltac:(lia)). lia. }
      destruct k as [|k]; [simpl; lia | ].
      exfalso. rewrite Nat2Z.inj_succ, Z.pow_succ_r in Hn by lia.
      assert (0 < 10 ^ Z.of_nat k)%Z by (apply Z.pow_pos_nonneg; lia). lia.
    + destruct k as [|k].
      * pose proof (utoa_length_acc fuel (n / 10)%Z (String (digit_char (n mod 10)) acc)) as H.
        simpl in H. lia.
      * rewrite Nat2Z.inj_succ, Z.pow_succ_r in Hn by lia.
        assert (Hdiv : (10 ^ Z.of_nat k <= n / 10 < 2 ^ Z.of_nat fuel)%Z).
        { split; [apply Z.div_le_lower_bound; lia | apply Z.div_lt_upper_bound; lia]. }
        specialize (IH k (n / 10)%Z (String (digit_char (n mod 10)) acc) Hdiv).
        simpl in IH. lia.
Qed.

Lemma itoa_length_le (k : nat) (n : Z) :
  (0 <= n < 10 ^ Z.of_nat (S k))%Z -> (String.length (itoa n) <= S k)%nat.
Proof.
  intros Hn. unfold itoa.
  destruct (n <? 0)%Z eqn:Hneg; [apply Z.ltb_lt in Hneg; lia | ].
  pose proof (utoa_length (digits_fuel n) k n EmptyString Hn) as H.
  change (String.length EmptyString) with 0%nat in H. lia.
Qed.

Lemma itoa_length_neg_le (k : nat) (n : Z) :
  (- 10 ^ Z.of_nat (S k) < n < 0)%Z -> (String.length (itoa n) <= S (S k))%nat.
Proof.
  intros Hn. unfold itoa.
  destruct (n <? 0)%Z eqn:Hneg; [ | apply Z.ltb_ge in Hneg; lia].
  pose proof (utoa_length (digits_fuel (- n)) k (- n) EmptyString ltac:(lia)) as H.
  change (String.length EmptyString) with 0%nat in H. cbn [String.length]. lia.
Qed.

Lemma itoa_length_ge (k : nat) (n : Z) :
  (10 ^ Z.of_nat k <= n)%Z -> (S k <= String.length (itoa n))%nat.
Proof.
  intros Hn. assert (Hpos : (0 < 10 ^ Z.of_nat k)%Z) by (apply Z.pow_pos_nonneg; lia).
  unfold itoa. destruct (n <? 0)%Z eqn:Hneg; [apply Z.ltb_lt in Hneg; lia | ].
  pose proof (digits_fuel_enough n ltac:(lia)) as Hf.
  pose proof (utoa_length_ge (digits_fuel n) k n EmptyString ltac:(lia)) as H.
  change (String.length EmptyString) with 0%nat in H. lia.
Qed.

Lemma itoa_length_neg_ge (k : nat) (n : Z) :
  (n <= - 10 ^ Z.of_nat k)%Z -> (S (S k) <= String.length (itoa n))%nat.
Proof.
  intros Hn. assert (Hpos : (0 < 10 ^ Z.of_nat k)%Z) by (apply Z.pow_pos_nonneg; lia).
  unfold itoa. destruct (n <? 0)%Z eqn:Hneg; [ | apply Z.ltb_ge in Hneg; lia].
  pose proof (digits_fuel_enough (- n) ltac:(lia)) as Hf.
  pose proof (utoa_length_ge (digits_fuel (- n)) k (- n) EmptyString ltac:(lia)) as H.
  change (String.length EmptyString) with 0%nat in H. cbn [String.length]. lia.
Qed.

(** The 30-byte buffer of [sendMessage] holds the line for every [int]. *)
Lemma format_30_complete (n : Z) :
  (- 2 ^ 31 <= n < 2 ^ 31)%Z ->
  (String.length ("Gas Level: " +:+ itoa n) <= 22)%nat
  /\ format_gas_level 30 n = "Gas Level: " +:+ itoa n.
Proof.
  intros Hn.
  assert (Hlen : (String.length (itoa n) <= 11)%nat).
  { destruct (Z.lt_ge_cases n 0) as [Hneg|Hpos].
    - apply (itoa_length_neg_le 9 n). change (10 ^ Z.of_nat 10)%Z with 10000000000%Z. lia.
    - pose proof (itoa_length_le 9 n) as H.
      change (10 ^ Z.of_nat 10)%Z with 10000000000%Z in H. lia. }
  assert (Hall : (String.length ("Gas Level: " +:+ itoa n) <= 22)%nat).
  { rewrite string_app_length. change (String.length "Gas Level: ") with 11%nat. lia. }
  split; [exact Hall | ].
  unfold format_gas_level, snprintf. apply str_take_all.
  change (30 - 1)%nat with 29%nat. lia.
Qed.

(** X1: for every value of a 32-bit (or narrower) [int], the 30-byte
    buffer of [sendMessage] holds "Gas Level: N" whole: the text has at
    most 22 characters and the line handed to the modem is not cut. *)
Theorem sendMessage_line_never_cut (message : string) (n : Z) (w : World) :
  (- 2 ^ 31 <= n < 2 ^ 31)%Z ->
  (String.length ("Gas Level: " +:+ itoa n) <= 22)%nat
  /\ runs (sendMessage message n) w
          [GsmPrintln "AT+CMGF=1"; Delay 1000;
           GsmPrintln CMGS_command; Delay 1000;
           GsmPrintln message; GsmPrintln ("Gas Level: " +:+ itoa n);
           GsmWrite 26; Delay 1000].
Proof.
  intros Hn. destruct (format_30_complete n Hn) as (Hlen & Hfmt).
  split; [exact Hlen | ].
  rewrite <- Hfmt. apply runs_sendMessage.
Qed.

Lemma sendMessage_line_never_cut_witness :
  (- 2 ^ 31 <= -2147483648 < 2 ^ 31)%Z
  /\ (String.length ("Gas Level: " +:+ itoa (-2147483648)) <= 22)%nat.
Proof.
  split; [lia | ].
  destruct (sendMessage_line_never_cut "Excess Gas Detected" (-2147483648)
              (power_on 0)) as (Hlen & _); [lia | exact Hlen].
Defined.

(** X2: the number in the "Gas Level: N" line of the message reads back as
    the reading: dropping the 11-character prefix from what [sendMessage]
    formats and parsing the rest as a decimal number gives the value it
    was called with. *)
Theorem sms_reading_round_trip (n : Z) :
  (- 2 ^ 31 <= n < 2 ^ 31)%Z ->
  atoi (str_drop 11 (format_gas_level 30 n)) = n
  /\ In (GsmPrintln (format_gas_level 30 n)) (sendMessage_log "Excess Gas Detected" n).
Proof.
  intros Hn. destruct (format_30_complete n Hn) as (_ & Hfmt).
  split.
  - rewrite Hfmt. change (str_drop 11 ("Gas Level: " +:+ itoa n)) with (itoa n).
    apply atoi_itoa.
  - unfold sendMessage_log. simpl. auto 10.
Qed.

Lemma sms_reading_round_trip_witness :
  (- 2 ^ 31 <= 501 < 2 ^ 31)%Z
  /\ atoi (str_drop 11 (format_gas_level 30 501)) = 501%Z.
Proof.
  split; [lia | ].
  destruct (sms_reading_round_trip 501) as (Hval & _); [lia | exact Hval].
Defined.

Lemma format_16_shape (level : Z) :
  format_gas_level 16 level = "Gas Level: " +:+ str_take 4 (itoa level).
Proof. reflexivity. Qed.

Lemma str_take_length_eq (n : nat) (s : string) :
  (n <= String.length s)%nat -> String.length (str_take n s) = n.
Proof.
  revert s. induction n as [|n IH]; intros [|c s] Hlen; simpl in *; try lia.
  rewrite IH by lia. reflexivity.
Qed.

(** X3: for every value of [level], [showGasLevel] makes the same five
    display calls: both rows are always written, and the second row is
    "Gas Level: " followed by at most the first four characters of the
    number, 15 characters at most. *)
Theorem showGasLevel_always_two_rows (level : Z) (w : World) :
  runs (showGasLevel level) w
       [LcdClear; LcdSetCursor 0 0; LcdPrint "Gas Scan is ON";
        LcdSetCursor 0 1; LcdPrint ("Gas Level: " +:+ str_take 4 (itoa level))]
  /\ (String.length (format_gas_level 16 level) <= 15)%nat
  /\ row0 (lcd (exec (showGasLevel level) w)) = shown "Gas Scan is ON".
Proof.
  refine (conj _ (conj _ _)).
  - exact (runs_showGasLevel level w).
  - unfold format_gas_level, snprintf. apply str_take_length.
  - apply (lcd_showMessage "Gas Scan is ON" (format_gas_level 16 level) w).
Qed.

(** X4: the second display line carries the whole number exactly when
    -999 <= level <= 9999; for every other value the 16-byte buffer cuts
    the text to 15 characters and digits are lost. *)
Theorem showGasLevel_complete_range (level : Z) :
  if decide (-999 <= level <= 9999)%Z
  then format_gas_level 16 level = "Gas Level: " +:+ itoa level
  else String.length (format_gas_level 16 level) = 15%nat
       /\ (String.length (itoa level) > 4)%nat
       /\ format_gas_level 16 level <> "Gas Level: " +:+ itoa level.
Proof.
  destruct (decide (-999 <= level <= 9999)%Z) as [Hin|Hout].
  - assert (Hlen : (String.length (itoa level) <= 4)%nat).
    { destruct (Z.lt_ge_cases level 0) as [Hneg|Hpos].
      - apply (itoa_length_neg_le 2 level).
        change (10 ^ Z.of_nat 3)%Z with 1000%Z. lia.
      - apply (itoa_length_le 3 level).
        change (10 ^ Z.of_nat 4)%Z with 10000%Z. lia. }
    rewrite format_16_shape, str_take_all by exact Hlen. reflexivity.
  - assert (Hlen : (5 <= String.length (itoa level))%nat).
    { destruct (Z.lt_ge_cases level 0) as [Hneg|Hpos].
      - apply (itoa_length_neg_ge 3 level).
        change (10 ^ Z.of_nat 3)%Z with 1000%Z. lia.
      - apply (itoa_length_ge 4 level).
        change (10 ^ Z.of_nat 4)%Z with 10000%Z. lia. }
    assert (H15 : String.length (format_gas_level 16 level) = 15%nat).
    { rewrite format_16_shape, string_app_length, str_take_length_eq by lia.
      reflexivity. }
    refine (conj H15 (conj _ _)); [lia | ].
    intros Heq. rewrite Heq, string_app_length in H15.
    change (String.length "Gas Level: ") with 11%nat in H15. lia.
Qed.

(** ** Runs of cycles *)

Lemma sample_reading (d : GasLeakageDetector) (r : Z) (w : World) :
  analog (sample d r w) (pin (sensor d)) = r.
Proof.
  unfold sample. simpl. destruct (decide (pin (sensor d) = pin (sensor d))); congruence.
Qed.

Lemma run_cycles_snoc (d : GasLeakageDetector) (rs : list Z) (r : Z) (w : World) :
  run_cycles d (rs ++ [r]) w
  = exec (detectAndRespond d) (sample d r (run_cycles d rs w)).
Proof.
  revert w. induction rs as [|r0 rs IH]; intros w; simpl; [reflexivity | apply IH].
Qed.

Lemma run_cycles_trace (d : GasLeakageDetector) (rs : list Z) (w : World) :
  trace (run_cycles d rs w) = trace w ++ concat (map (detect_log d) rs).
Proof.
  revert w. induction rs as [|r rs IH]; intros w; simpl.
  - rewrite app_nil_r. reflexivity.
  - rewrite IH.
    destruct (runs_detectAndRespond d (sample d r w)) as (Ht & _).
    rewrite Ht, sample_reading, <- app_assoc. reflexivity.
Qed.

Lemma delay_total_app (l1 l2 : list Event) :
  delay_total (l1 ++ l2) = (delay_total l1 + delay_total l2)%Z.
Proof.
  induction l1 as [|e l1 IH]; simpl; [reflexivity | ].
  destruct e; rewrite ?IH; lia.
Qed.

(** What one cycle adds to the counters. *)
Lemma cycle_counts (d : GasLeakageDetector) (r : Z) :
  sms_count (detect_log d r) = (if (r >? threshold d)%Z then 1 else 0)%nat
  /\ tone_count (detect_log d r) = (if (r >? threshold d)%Z then 40 else 0)%nat
  /\ delay_total (detect_log d r) = (if (r >? threshold d)%Z then 11200 else 1000)%Z.
Proof.
  unfold detect_log. destruct (r >? threshold d)%Z; repeat split; reflexivity.
Qed.

Lemma danger_count_cons (d : GasLeakageDetector) (r : Z) (rs : list Z) :
  danger_count d (r :: rs)
  = ((if (r >? threshold d)%Z then 1 else 0) + danger_count d rs)%nat.
Proof.
  unfold danger_count. rewrite filter_cons.
  destruct (decide (threshold d < r)%Z) as [Hlt|Hge].
  - replace (r >? threshold d)%Z with true by (symmetry; apply Z.gtb_gt; lia).
    reflexivity.
  - replace (r >? threshold d)%Z with false; [reflexivity | ].
    symmetry. rewrite Z.gtb_ltb. apply Z.ltb_ge. lia.
Qed.

Lemma run_counts (d : GasLeakageDetector) (rs : list Z) :
  sms_count (concat (map (detect_log d) rs)) = danger_count d rs
  /\ tone_count (concat (map (detect_log d) rs)) = (40 * danger_count d rs)%nat
  /\ delay_total (concat (map (detect_log d) rs))
     = (1000 * Z.of_nat (length rs) + 10200 * Z.of_nat (danger_count d rs))%Z.
Proof.
  induction rs as [|r rs (IHs & IHt & IHd)].
  - repeat split; reflexivity.
  - destruct (cycle_counts d r) as (Hs & Ht & Hd).
    cbn [map concat]. rewrite sms_count_app, tone_count_app, delay_total_app.
    rewrite IHs, IHt, IHd, Hs, Ht, Hd, danger_count_cons.
    cbn [length]. destruct (r >? threshold d)%Z; repeat split; lia.
Qed.

(** X5: over any run of cycles, for any detector, the number of messages
    handed to the modem equals the number of readings above the threshold,
    and 40 alert tones are played for each of them: every cycle in Danger
    sends again, whatever the cycles before it did. *)
Theorem one_sms_per_danger_cycle (d : GasLeakageDetector) (rs : list Z) (w : World) :
  sms_count (trace (run_cycles d rs w))
  = (sms_count (trace w) + danger_count d rs)%nat
  /\ tone_count (trace (run_cycles d rs w))
     = (tone_count (trace w) + 40 * danger_count d rs)%nat.
Proof.
  rewrite run_cycles_trace, sms_count_app, tone_count_app.
  destruct (run_counts d rs) as (Hs & Ht & _). rewrite Hs, Ht. auto.
Qed.

(** X6: the time a run of cycles spends in [delay] is 1000 ms per cycle
    plus 10200 ms for every reading above the threshold; one Safe cycle
    blocks for 1000 ms and one Danger cycle for 11200 ms. *)
Theorem cycle_blocking_time (d : GasLeakageDetector) (rs : list Z) (w : World) :
  delay_total (trace (run_cycles d rs w))
  = (delay_total (trace w)
     + 1000 * Z.of_nat (length rs) + 10200 * Z.of_nat (danger_count d rs))%Z
  /\ (forall r, delay_total (detect_log d r)
                = if (r >? threshold d)%Z then 11200%Z else 1000%Z).
Proof.
  split.
  - rewrite run_cycles_trace, delay_total_app.
    destruct (run_counts d rs) as (_ & _ & Hd). rewrite Hd. lia.
  - intros r. apply cycle_counts.
Qed.

(** X7: after any run of cycles, the outputs follow the last reading alone:
    on an alarm wired to four different pins, the red LED and the relay
    are high exactly when the last reading exceeds the threshold, the
    green LED carries the opposite level, and the display shows the
    matching status, whatever the earlier readings and the starting state
    were. *)
Theorem outputs_follow_last_reading
    (d : GasLeakageDetector) (rs : list Z) (r : Z) (w : World) :
  distinct_pins (alarm d) ->
  let w' := run_cycles d (rs ++ [r]) w in
  pins w' !! redLedPin (alarm d) = Some (alert_level d r)
  /\ pins w' !! greenLedPin (alarm d) = Some (opposite (alert_level d r))
  /\ pins w' !! relayPin (alarm d) = Some (alert_level d r)
  /\ row0 (lcd w') = shown (if (r >? threshold d)%Z
                            then "Gas Level Exceed" else "Gas Level Normal")
  /\ row1 (lcd w') = (if (r >? threshold d)%Z then shown "SMS Sent" else blank_row).
Proof.
  intros Hd w'. apply distinct_pins_neq in Hd.
  destruct Hd as (Hbr & Hbg & Hbl & Hrg & Hrl & Hgl).
  unfold w'. rewrite run_cycles_snoc.
  pose proof (pins_detectAndRespond d (sample d r (run_cycles d rs w))) as Hp.
  pose proof (lcd_detectAndRespond d (sample d r (run_cycles d rs w))) as Hl.
  cbv zeta in Hl. rewrite sample_reading in Hp, Hl. unfold alert_level.
  destruct (r >? threshold d)%Z.
  - rewrite Hp, pins_trigger. destruct Hl as (Hl0 & Hl1).
    repeat split; first [assumption | pin_lookups].
  - rewrite Hp, pins_reset. destruct Hl as (Hl0 & Hl1).
    repeat split; first [assumption | pin_lookups].
Qed.

Lemma outputs_follow_last_reading_witness :
  distinct_pins (alarm detector)
  /\ pins (run_cycles detector ([700; 800] ++ [300])%Z (power_on 0))
       !! relayPin (alarm detector) = Some LOW
  /\ pins (run_cycles detector ([700; 800] ++ [300])%Z (power_on 0))
       !! greenLedPin (alarm detector) = Some HIGH.
Proof.
  assert (Hd : distinct_pins (alarm detector)).
  { unfold distinct_pins. rewrite !NoDup_cons, !not_elem_of_cons.
    cbn. repeat split; try discriminate; try apply not_elem_of_nil; apply NoDup_nil_2. }
  destruct (outputs_follow_last_reading detector [700; 800]%Z 300 (power_on 0) Hd)
    as (_ & Hg & Hl & _).
  split; [exact Hd | ]. split; [exact Hl | exact Hg].
Defined.

(** The pin writes of a cycle are those of [trigger] or of [reset]. *)
Lemma cycle_pin_writes (d : GasLeakageDetector) (r : Z) :
  filter is_pin_write (detect_log d r)
  = if (r >? threshold d)%Z then trigger_log (alarm d) else reset_log (alarm d).
Proof. unfold detect_log. destruct (r >? threshold d)%Z; reflexivity. Qed.

Lemma cycle_modem_calls (d : GasLeakageDetector) (r : Z) :
  filter is_gsm (detect_log d r)
  = if (r >? threshold d)%Z
    then filter is_gsm (sendMessage_log "Excess Gas Detected" r)
    else [].
Proof. unfold detect_log. destruct (r >? threshold d)%Z; reflexivity. Qed.

(** X8: on an alarm wired to four different pins, no cycle ever writes
    HIGH to the buzzer pin: over any run of cycles the log has no such
    call, and the level of the buzzer pin at the end is either the one it
    started with or LOW.  The buzzer is driven through [tone] only. *)
Theorem buzzer_never_written_high (d : GasLeakageDetector) (rs : list Z) (w : World) :
  distinct_pins (alarm d) ->
  (DigitalWrite (buzzerPin (alarm d)) HIGH ∉ concat (map (detect_log d) rs))
  /\ (pins (run_cycles d rs w) !! buzzerPin (alarm d) = pins w !! buzzerPin (alarm d)
      \/ pins (run_cycles d rs w) !! buzzerPin (alarm d) = Some LOW).
Proof.
  intros Hd. apply distinct_pins_neq in Hd.
  destruct Hd as (Hbr & Hbg & Hbl & Hrg & Hrl & Hgl).
  split.
  - intros Hin. apply list_elem_of_In, in_concat in Hin as (l & Hin & Hl).
    apply in_map_iff in Hin as (r & <- & _). apply list_elem_of_In in Hl.
    assert (Hw : DigitalWrite (buzzerPin (alarm d)) HIGH
                 ∈ filter is_pin_write (detect_log d r)).
    { apply list_elem_of_filter. split; [exact I | exact Hl]. }
    rewrite cycle_pin_writes in Hw.
    destruct (r >? threshold d)%Z; unfold trigger_log, reset_log in Hw;
      rewrite !elem_of_cons, elem_of_nil in Hw;
      intuition congruence.
  - revert w. induction rs as [|r rs IH]; intros w; [left; reflexivity | ].
    simpl.
    assert (Hstep : pins (exec (detectAndRespond d) (sample d r w)) !! buzzerPin (alarm d)
                    = pins w !! buzzerPin (alarm d)
                    \/ pins (exec (detectAndRespond d) (sample d r w)) !! buzzerPin (alarm d)
                       = Some LOW).
    { rewrite pins_detectAndRespond.
      destruct (analog (sample d r w) (pin (sensor d)) >? threshold d)%Z.
      - left. rewrite pins_trigger. pin_lookups.
      - right. rewrite pins_reset. pin_lookups. }
    destruct (IH (exec (detectAndRespond d) (sample d r w))) as [Hsame|Hlow];
      [ | right; exact Hlow].
    rewrite Hsame. exact Hstep.
Qed.

Lemma buzzer_never_written_high_witness :
  distinct_pins (alarm detector)
  /\ (DigitalWrite (buzzerPin (alarm detector)) HIGH
      ∉ concat (map (detect_log detector) [700; 300; 501]%Z)).
Proof.
  assert (Hd : distinct_pins (alarm detector)).
  { unfold distinct_pins. rewrite !NoDup_cons, !not_elem_of_cons.
    cbn. repeat split; try discriminate; try apply not_elem_of_nil; apply NoDup_nil_2. }
  destruct (buzzer_never_written_high detector [700; 300; 501]%Z (power_on 0) Hd)
    as (Hno & _).
  split; [exact Hd | exact Hno].
Defined.

(** X9: over any run of cycles the modem receives, in order, one complete
    dialogue of [sendMessage] for each reading above the threshold, each
    carrying its own reading, and nothing for the other readings. *)
Theorem modem_traffic_of_run (d : GasLeakageDetector) (rs : list Z) (w : World) :
  filter is_gsm (trace (run_cycles d rs w))
  = filter is_gsm (trace w)
    ++ concat (map (fun r => filter is_gsm (sendMessage_log "Excess Gas Detected" r))
                   (filter (fun r => (threshold d < r)%Z) rs)).
Proof.
  rewrite run_cycles_trace, filter_app. f_equal.
  induction rs as [|r rs IH]; [reflexivity | ].
  cbn [map concat]. rewrite filter_app, IH, cycle_modem_calls, filter_cons.
  destruct (decide (threshold d < r)%Z) as [Hlt|Hge].
  - replace (r >? threshold d)%Z with true by (symmetry; apply Z.gtb_gt; lia).
    reflexivity.
  - replace (r >? threshold d)%Z with false; [reflexivity | ].
    symmetry. rewrite Z.gtb_ltb. apply Z.ltb_ge. lia.
Qed.

(** X10: every cycle writes three items to the diagnostic port, in this
    order: the label "Gas Level: ", the reading in decimal (which reads
    back as the reading), and the status line of the branch taken. *)
Theorem diagnostic_log_of_cycle (d : GasLeakageDetector) (w : World) :
  let r := analog w (pin (sensor d)) in
  filter is_serial (trace (exec (detectAndRespond d) w))
  = filter is_serial (trace w)
    ++ [SerialPrint "Gas Level: "; SerialPrintln (itoa r);
        SerialPrintln (if (r >? threshold d)%Z
                       then "Excess Gas Detected" else "Gas Level Normal")]
  /\ atoi (itoa r) = r.
Proof.
  intros r. split; [ | apply atoi_itoa].
  destruct (runs_detectAndRespond d w) as (Ht & _). fold r in Ht.
  rewrite Ht, filter_app. f_equal.
  unfold detect_log. destruct (r >? threshold d)%Z; reflexivity.
Qed.

(** X11: the time each method spends in [delay], from any state:
    [playStartupSound] 750 ms over 4 tones, [playAlertSound] 7200 ms,
    [sendMessage] 3000 ms; [trigger], [reset] and [showMessage] do not
    wait at all. *)
Theorem blocking_time_of_methods
    (a : Alarm) (message line1 line2 : string) (n : Z) (w : World) :
  delay_total (trace (exec (playStartupSound a) w)) = (delay_total (trace w) + 750)%Z
  /\ tone_count (trace (exec (playStartupSound a) w)) = (tone_count (trace w) + 4)%nat
  /\ delay_total (trace (exec (playAlertSound a) w)) = (delay_total (trace w) + 7200)%Z
  /\ delay_total (trace (exec (sendMessage message n) w)) = (delay_total (trace w) + 3000)%Z
  /\ delay_total (trace (exec (trigger a) w)) = delay_total (trace w)
  /\ delay_total (trace (exec (reset a) w)) = delay_total (trace w)
  /\ delay_total (trace (exec (showMessage line1 line2) w)) = delay_total (trace w).
Proof.
  destruct (runs_playStartupSound a w) as (H1 & _).
  destruct (runs_playAlertSound a w) as (H2 & _).
  destruct (runs_sendMessage message n w) as (H3 & _).
  destruct (runs_trigger a w) as (H4 & _).
  destruct (runs_reset a w) as (H5 & _).
  destruct (runs_showMessage line1 line2 w) as (H6 & _).
  rewrite H1, H2, H3, H4, H5, H6, tone_count_app, !delay_total_app.
  assert (H7 : delay_total (showMessage_log line1 line2) = 0%Z).
  { unfold showMessage_log. destruct (decide (first_char line2 <> NUL)); reflexivity. }
  rewrite H7.
  change (delay_total (playStartupSound_log a)) with 750%Z.
  change (tone_count (playStartupSound_log a)) with 4%nat.
  change (delay_total (playAlertSound_log a)) with 7200%Z.
  change (delay_total (sendMessage_log message n)) with 3000%Z.
  change (delay_total (trigger_log a)) with 0%Z.
  change (delay_total (reset_log a)) with 0%Z.
  repeat split; lia.
Qed.

(** X12: how [trigger] and [reset] compose, for any wiring (also when
    pins coincide): [reset] after [trigger] leaves the pins as [reset]
    alone does, and [trigger] after [reset] leaves them as [trigger] does
    on a board whose buzzer pin was written LOW first. *)
Theorem trigger_reset_compose (a : Alarm) (w : World) :
  pins (exec (reset a) (exec (trigger a) w)) = pins (exec (reset a) w)
  /\ pins (exec (trigger a) (exec (reset a) w))
     = pins (exec (trigger a) (exec (digitalWrite (buzzerPin a) LOW) w)).
Proof.
  split.
  - rewrite !pins_reset, pins_trigger. apply map_eq; intros p. pin_lookups.
  - rewrite !pins_trigger, pins_reset.
    change (pins (exec (digitalWrite (buzzerPin a) LOW) w))
      with (<[buzzerPin a := LOW]> (pins w)).
    apply map_eq; intros p. pin_lookups.
Qed.

(** ** Start-up *)

Lemma world_boot (b : Board) :
  world (boot b)
  = exec (delay 7000)
      (exec (showMessage " Gas Leakage " "Detector Alarm")
         (exec (playStartupSound gasAlarm) (world b))).
Proof. reflexivity. Qed.



